(** * Wallet utilities of the Opyn RFQ SDK (opyn/wallet.py)

    A shallow embedding of [opyn.wallet.Wallet]: construction of a wallet,
    signing of a message hash, EIP-712 order signing, the allowance check
    and the settlement call, together with the Python built-ins these
    methods rely on ([hex], [bytes.fromhex], string slicing, truthiness,
    true division of integers).

    Collaborators whose code is not part of wallet.py (the [eth_keys]
    signer, [TypedDataEncoder._hash], [get_address], [hex_zero_pad], the
    ERC-20 and settlement contracts, the relayer) are parameters of the
    development. *)

From Stdlib Require Import ZArith List String Ascii Bool Lia.
From Stdlib Require Import Init.Byte DecimalString.
From Stdlib Require PrimFloat FloatOps SpecFloat Uint63.
From stdpp Require Import base option list strings gmap.

Local Open Scope Z_scope.

(* ===================================================================== *)
(** * Python values and exceptions *)
(* ===================================================================== *)

(** Values that travel through dataclass fields and dictionaries. *)
Inductive pyval :=
| PNone
| PInt (n : Z)
| PStr (s : string).

Global Instance pyval_eq_dec : EqDecision pyval.
Proof. solve_decision. Defined.

(** Exceptions, named as in Python, carrying their message. *)
Inductive exn :=
| ValueError (msg : string)
| TypeError (msg : string)
| AttributeError (msg : string)
| KeyError (key : string)
| ZeroDivisionError (msg : string)
| OverflowError (msg : string).

Inductive result (A : Type) :=
| Ok (a : A)
| Raise (e : exn).
Arguments Ok {A} a.
Arguments Raise {A} e.

Global Instance result_ret : MRet result := fun A a => Ok a.
Global Instance result_bind : MBind result := fun A B f c =>
  match c with
  | Ok a => f a
  | Raise e => Raise e
  end.

(* ===================================================================== *)
(** * Python built-ins used by wallet.py *)
(* ===================================================================== *)

Module Py.

(** Truthiness of an optional string argument: [None] and [""] are falsy. *)
Definition truthy (o : option string) : bool :=
  match o with
  | None => false
  | Some EmptyString => false
  | Some (String _ _) => true
  end.

(** [s[n:]] *)
Fixpoint slice_from (n : nat) (s : string) : string :=
  match n, s with
  | O, _ => s
  | S n', String _ s' => slice_from n' s'
  | S _, EmptyString => EmptyString
  end.

(** Lowercase hexadecimal digit of a value below 16. *)
Definition hex_digit (d : Z) : ascii :=
  if d <? 10 then ascii_of_nat (Z.to_nat (48 + d))
  else ascii_of_nat (Z.to_nat (87 + d)).

(** Digits of a non-negative integer, most significant first, no leading
    zero; [fuel] bounds the number of digits. *)
Fixpoint hex_digits (fuel : nat) (n : Z) (acc : string) : string :=
  match fuel with
  | O => String (hex_digit (n mod 16)) acc
  | S fuel' =>
      if n <? 16 then String (hex_digit n) acc
      else hex_digits fuel' (n / 16) (String (hex_digit (n mod 16)) acc)
  end.

(** [hex(n)]: ["0x"] and the digits, with a leading minus sign for a
    negative integer. *)
Definition hex (n : Z) : string :=
  let a := Z.abs n in
  let body := ("0x" ++ hex_digits (Z.to_nat (Z.log2 a)) a "")%string in
  if n <? 0 then String "-"%char body else body.

(** Value of a hexadecimal digit, either case. *)
Definition hex_value (c : ascii) : option Z :=
  let n := Z.of_nat (nat_of_ascii c) in
  if (48 <=? n) && (n <=? 57) then Some (n - 48)
  else if (97 <=? n) && (n <=? 102) then Some (n - 87)
  else if (65 <=? n) && (n <=? 70) then Some (n - 55)
  else None.

(** ASCII whitespace, skipped by [bytes.fromhex] between bytes. *)
Definition is_space (c : ascii) : bool :=
  let n := nat_of_ascii c in
  (Nat.eqb n 32 || (Nat.leb 9 n && Nat.leb n 13))%bool.

Definition byte_of_Z (z : Z) : byte :=
  match Byte.of_N (Z.to_N z) with Some b => b | None => x00 end.

Definition fromhex_error : exn :=
  ValueError "non-hexadecimal number found in fromhex() arg".

(** [bytes.fromhex(s)]: two digits per byte, whitespace allowed between
    bytes only. *)
Fixpoint bytes_fromhex (s : string) : result (list byte) :=
  match s with
  | EmptyString => Ok []
  | String c rest =>
      if is_space c then bytes_fromhex rest
      else
        match hex_value c, rest with
        | Some hi, String c' rest' =>
            match hex_value c' with
            | Some lo =>
                match bytes_fromhex rest' with
                | Ok bs => Ok (byte_of_Z (16 * hi + lo) :: bs)
                | Raise e => Raise e
                end
            | None => Raise fromhex_error
            end
        | _, _ => Raise fromhex_error
        end
  end.

(** [int(s, 16)] on a string of hexadecimal digits. *)
Fixpoint hex_val (s : string) : Z :=
  match s with
  | EmptyString => 0
  | String c s' =>
      default 0 (hex_value c) * 16 ^ Z.of_nat (String.length s') + hex_val s'
  end.

(** The characters [hex] produces: digits and lowercase letters a-f. *)
Definition is_lower_hex (c : ascii) : bool :=
  let n := Z.of_nat (nat_of_ascii c) in
  ((48 <=? n) && (n <=? 57)) || ((97 <=? n) && (n <=? 102)).

(** [str(v)] *)
Definition str (v : pyval) : string :=
  match v with
  | PNone => "None"
  | PInt n => NilZero.string_of_int (Z.to_int n)
  | PStr s => s
  end.

(** [a + b] where [b] is a string and [a] a string or [None]. *)
Definition add_str (a : option string) (b : string) : result string :=
  match a with
  | Some x => Ok (x ++ b)%string
  | None =>
      Raise (TypeError "unsupported operand type(s) for +: 'NoneType' and 'str'")
  end.

End Py.

(* ===================================================================== *)
(** * True division of integers and comparison of its result *)
(* ===================================================================== *)

Module PyFloat.

(** A finite binary64 value [(-1)^neg * man * 2^exp]. *)
Record t := mk { neg : bool; man : Z; exp : Z }.

(** Nearest integer to [num / den], ties to even ([0 <= num], [0 < den]). *)
Definition round_half_even (num den : Z) : Z :=
  let q := num / den in
  let r := num mod den in
  if 2 * r <? den then q
  else if den <? 2 * r then q + 1
  else if Z.even q then q else q + 1.

(** [floor (log2 (a / b))] for positive [a] and [b]. *)
Definition quot_log2 (a b : Z) : Z :=
  let d := Z.log2 a - Z.log2 b in
  let reaches := if 0 <=? d then b * 2 ^ d <=? a else b <=? a * 2 ^ (- d) in
  if reaches then d else d - 1.

Definition overflow_error : exn :=
  OverflowError "integer division result too large for a float".

(** [a / b] on Python integers: the exact quotient rounded to the nearest
    binary64 value (53 significant bits, exponent no lower than -1074),
    ties to even. *)
Definition true_div (a b : Z) : result t :=
  if b =? 0 then Raise (ZeroDivisionError "division by zero")
  else
    let sign := xorb (a <? 0) (b <? 0) in
    if a =? 0 then Ok (mk sign 0 0)
    else
      let x := Z.abs a in
      let y := Z.abs b in
      let e := Z.max (quot_log2 x y - 52) (-1074) in
      let m := if 0 <=? e then round_half_even x (y * 2 ^ e)
               else round_half_even (x * 2 ^ (- e)) y in
      if (0 <=? e) && (2 ^ 1024 <=? m * 2 ^ e) then Raise overflow_error
      else Ok (mk sign m e).

(** [f > n] for a float [f] and an integer [n]; Python compares the two
    exactly. *)
Definition gt_int (f : t) (n : Z) : bool :=
  let sm := if neg f then - man f else man f in
  if 0 <=? exp f then n <? sm * 2 ^ exp f
  else n * 2 ^ (- exp f) <? sm.

(** The value in the form the machine's floats decode to: zero, or a sign,
    a mantissa and an exponent, the mantissa [2^53] written as [2^52]. *)
Definition to_spec_float (f : t) : SpecFloat.spec_float :=
  match man f with
  | Zpos m =>
      if man f =? 2 ^ 53
      then SpecFloat.S754_finite (neg f) (Z.to_pos (2 ^ 52)) (exp f + 1)
      else SpecFloat.S754_finite (neg f) m (exp f)
  | _ => SpecFloat.S754_zero (neg f)
  end.

(** The quotient as the processor's binary64 division computes it from
    two non-negative integers below [2^53], which convert to floats
    without rounding; CPython takes this path for such operands. *)
Definition binary64_div (a b : Z) : SpecFloat.spec_float :=
  FloatOps.Prim2SF
    (PrimFloat.div (PrimFloat.of_uint63 (Uint63.of_Z a))
                   (PrimFloat.of_uint63 (Uint63.of_Z b))).

Definition spec_float_eqb (x y : SpecFloat.spec_float) : bool :=
  match x, y with
  | SpecFloat.S754_zero s, SpecFloat.S754_zero s' => Bool.eqb s s'
  | SpecFloat.S754_finite s m e, SpecFloat.S754_finite s' m' e' =>
      Bool.eqb s s' && Pos.eqb m m' && Z.eqb e e'
  | _, _ => false
  end.

(** Does [true_div] give what the processor gives? *)
Definition agrees_with_binary64 (ab : Z * Z) : bool :=
  match true_div ab.1 ab.2 with
  | Ok f => spec_float_eqb (to_spec_float f) (binary64_div ab.1 ab.2)
  | Raise _ => false
  end.

End PyFloat.

(* ===================================================================== *)
(** * Data model (opyn.definitions) *)
(* ===================================================================== *)

(** Modelled from the spec: the dataclass [Domain] of opyn.definitions is
    not part of wallet.py; its five optional fields are those the spec's
    data model lists. *)
Module Domain.
Record t := mk {
  name : option string;
  version : option string;
  chainId : option Z;
  verifyingContract : option string;
  salt : option string
}.
End Domain.

(** Modelled from the spec: the dataclass [MessageToSign]
    (the unsigned order). *)
Module MessageToSign.
Record t := mk {
  bidId : Z;
  trader : string;
  token : string;
  amount : Z;
  nonce : Z
}.
End MessageToSign.

(** Modelled from the spec: the dataclass [OrderData] (the signed order),
    seven fields in this order.  Fields hold whatever value the
    constructor was given. *)
Module OrderData.
Record t := mk {
  bidId : pyval;
  trader : pyval;
  token : pyval;
  amount : pyval;
  v : pyval;
  r : pyval;
  s : pyval
}.
Definition fields : list string :=
  ["bidId"; "trader"; "token"; "amount"; "v"; "r"; "s"]%string.
End OrderData.

(** [ContractConfig(address=..., rpc_uri=..., chain_id=...)] *)
Module ContractConfig.
Record t := mk {
  address : string;
  rpc_uri : string;
  chain_id : Z
}.
End ContractConfig.

(** An argument as Python passes it: any object, whose class the callee
    inspects with [isinstance]. *)
Inductive pyobj :=
| ObjDomain (d : Domain.t)
| ObjMessageToSign (m : MessageToSign.t)
| ObjOrderData (o : OrderData.t)
| ObjVal (v : pyval).

Definition of_opt_str (o : option string) : pyval :=
  match o with Some s => PStr s | None => PNone end.
Definition of_opt_int (o : option Z) : pyval :=
  match o with Some n => PInt n | None => PNone end.

(** [dataclasses.asdict] *)
Definition asdict_Domain (d : Domain.t) : gmap string pyval :=
  {[ "name"%string := of_opt_str (Domain.name d);
     "version"%string := of_opt_str (Domain.version d);
     "chainId"%string := of_opt_int (Domain.chainId d);
     "verifyingContract"%string := of_opt_str (Domain.verifyingContract d);
     "salt"%string := of_opt_str (Domain.salt d) ]}.

Definition asdict_MessageToSign (m : MessageToSign.t) : gmap string pyval :=
  {[ "bidId"%string := PInt (MessageToSign.bidId m);
     "trader"%string := PStr (MessageToSign.trader m);
     "token"%string := PStr (MessageToSign.token m);
     "amount"%string := PInt (MessageToSign.amount m);
     "nonce"%string := PInt (MessageToSign.nonce m) ]}.

(** [{k: v for k, v in d.items() if v is not None}] *)
Definition drop_none (d : gmap string pyval) : gmap string pyval :=
  filter (fun kv => kv.2 <> PNone) d.

(** [d[k]] *)
Definition subscript (d : gmap string pyval) (k : string) : result pyval :=
  match d !! k with
  | Some x => Ok x
  | None => Raise (KeyError k)
  end.

(** [o.a] on an object exposing the attributes [o]. *)
Definition getattr (o : gmap string pyval) (a : string) : result pyval :=
  match o !! a with
  | Some x => Ok x
  | None => Raise (AttributeError ("object has no attribute '" ++ a ++ "'"))
  end.

(* ===================================================================== *)
(** * Effects *)
(* ===================================================================== *)

(** Observable calls into collaborators, in the order they happen. *)
Inductive event :=
| EvHash (domain : gmap string pyval)
         (types : gmap string (list (string * string)))
         (value : gmap string pyval)
| EvSign (msg_hash : list byte)
| EvHttpGet (url : string)
| EvPrint
| EvSettle (bid_order seller_order : OrderData.t).

(** A computation yields the calls it made and a value or an exception;
    an exception stops the computation, the calls made so far remain. *)
Definition M (A : Type) : Type := (list event * result A)%type.

Global Instance M_ret : MRet M := fun A a => ([], Ok a).
Global Instance M_bind : MBind M := fun A B f c =>
  match c with
  | (l, Ok a) => let '(l', r) := f a in (l ++ l', r)
  | (l, Raise e) => (l, Raise e)
  end.

Definition raise {A} (e : exn) : M A := ([], Raise e).
Definition emit (ev : event) : M unit := ([ev], Ok tt).
Definition lift {A} (r : result A) : M A := ([], r).

Definition outcome {A} (c : M A) : result A := c.2.
Definition trace {A} (c : M A) : list event := c.1.


(* ===================================================================== *)
(** * Constants of wallet.py *)
(* ===================================================================== *)

Definition MESSAGE_TYPES : gmap string (list (string * string)) :=
  {[ "OpynRfq"%string :=
       [ ("bidId", "uint256"); ("trader", "address"); ("token", "address");
         ("amount", "uint256"); ("nonce", "uint256") ]%string ]}.

Definition MIN_ALLOWANCE : Z := 100000000.

(** The errors wallet.py raises itself. *)
Definition ConstructionError : exn :=
  ValueError "Can't instanciate a Wallet without a public or private key".
Definition InvalidDomain : exn := TypeError "Invalid domain parameters".
Definition InvalidMessage : exn :=
  TypeError "Invalid message_to_sign(MessageToSign)".
Definition MissingPrivateKey : exn :=
  ValueError "Unable to sign. Create the Wallet with the private key argument.".
Definition SignerMismatch : exn :=
  ValueError "Signer wallet address mismatch".
(** Reading [self.signer] on a wallet built without a private key. *)
Definition NoSignerAttribute : exn :=
  AttributeError "'Wallet' object has no attribute 'signer'".

(* ===================================================================== *)
(** * Collaborators *)
(* ===================================================================== *)

(** What [signer.sign_msg_hash] returns: the raw recovery id and the two
    integers of the ECDSA signature. *)
Module Signature.
Record t := mk { v : Z; r : Z; s : Z }.
End Signature.

(** A token contract connection: its [decimals] attribute and its
    [get_allowance(owner, spender)] method. *)
Module ERC20Contract.
Record t := mk {
  decimals : Z;
  get_allowance : option string -> string -> result Z
}.
End ERC20Contract.

(** Everything wallet.py imports and calls. *)
Class Env := {
  (** [eth_keys.keys.PrivateKey] *)
  Signer : Type;
  PrivateKey : list byte -> result Signer;
  (** [signer.public_key.to_address()] *)
  to_address : Signer -> string;
  sign_msg_hash : Signer -> list byte -> result Signature.t;
  (** [opyn.utils] *)
  get_address : string -> result string;
  hex_zero_pad : string -> Z -> result string;
  (** [opyn.encode.TypedDataEncoder._hash] *)
  TypedDataEncoder_hash :
    gmap string pyval -> gmap string (list (string * string)) ->
    gmap string pyval -> result string;
  (** [opyn.erc20.ERC20Contract(config)] *)
  ERC20Contract_new : ContractConfig.t -> result ERC20Contract.t;
  (** [opyn.settlement.SettlementContract(config)] and its [settleRfq] *)
  SettlementContract_new : ContractConfig.t -> result unit;
  settleRfq :
    ContractConfig.t -> option string -> option string ->
    OrderData.t -> OrderData.t -> result unit;
  (** [requests.get(url, headers=...).json()]: the attributes the parsed
      response exposes *)
  requests_get_json :
    string -> list (string * option string) -> result (gmap string pyval);
  (** default values the declaration of [OrderData] gives its fields *)
  OrderData_defaults : gmap string pyval
}.

(* ===================================================================== *)
(** * class Wallet *)
(* ===================================================================== *)

Section Wallet.
Context {E : Env}.

(** The attributes of a wallet; [signer] is set only by the branch of
    [__init__] that has a private key. *)
Record Wallet := mkWallet {
  private_key : option string;
  public_key : option string;
  relayer_url : option string;
  relayer_token : option string;
  signer : option Signer
}.

(** [Wallet.__init__] *)
Definition Wallet_init (public_key private_key relayer_url relayer_token : option string)
  : result Wallet :=
  if negb (Py.truthy private_key) && negb (Py.truthy public_key)
  then Raise ConstructionError
  else
    match private_key with
    | Some pk =>
        if Py.truthy private_key then
          match Py.bytes_fromhex (Py.slice_from 2 pk) with
          | Raise e => Raise e
          | Ok bs =>
              match PrivateKey bs with
              | Raise e => Raise e
              | Ok sg =>
                  if negb (Py.truthy public_key) then
                    match get_address (to_address sg) with
                    | Raise e => Raise e
                    | Ok a =>
                        Ok (mkWallet private_key (Some a)
                                     relayer_url relayer_token (Some sg))
                    end
                  else
                    Ok (mkWallet private_key public_key
                                 relayer_url relayer_token (Some sg))
              end
          end
        else Ok (mkWallet private_key public_key relayer_url relayer_token None)
    | None => Ok (mkWallet private_key public_key relayer_url relayer_token None)
    end.

(** [Wallet.sign_msg] *)
Definition sign_msg (self : Wallet) (messageHash : string)
  : M (gmap string pyval) :=
  sg ← lift (match signer self with
             | Some sg => Ok sg
             | None => Raise NoSignerAttribute
             end);
  bs ← lift (Py.bytes_fromhex (Py.slice_from 2 messageHash));
  _ ← emit (EvSign bs);
  signature ← lift (sign_msg_hash sg bs);
  r ← lift (hex_zero_pad (Py.hex (Signature.r signature)) 32);
  s ← lift (hex_zero_pad (Py.hex (Signature.s signature)) 32);
  mret ({[ "v"%string := PInt (Signature.v signature + 27);
           "r"%string := PStr r;
           "s"%string := PStr s ]} : gmap string pyval).

(** [Wallet._sign_type_data_v4] *)
Definition _sign_type_data_v4 (self : Wallet) (domain : pyobj)
    (types : gmap string (list (string * string))) (value : gmap string pyval)
  : M (gmap string pyval) :=
  match domain with
  | ObjDomain d =>
      let domain_dict := drop_none (asdict_Domain d) in
      _ ← emit (EvHash domain_dict types value);
      h ← lift (TypedDataEncoder_hash domain_dict types value);
      sign_msg self h
  | _ => raise InvalidDomain
  end.

(** [Wallet.sign_order_data] *)
Definition sign_order_data (self : Wallet) (domain : pyobj) (message_to_sign : pyobj)
  : M OrderData.t :=
  match message_to_sign with
  | ObjMessageToSign m =>
      if negb (Py.truthy (private_key self)) then raise MissingPrivateKey
      else
        signerWallet ← lift (get_address (MessageToSign.trader m));
        if bool_decide (Some signerWallet <> public_key self)
        then raise SignerMismatch
        else
          signature ← _sign_type_data_v4 self domain MESSAGE_TYPES
                                         (asdict_MessageToSign m);
          v ← lift (subscript signature "v");
          r ← lift (subscript signature "r");
          s ← lift (subscript signature "s");
          mret (OrderData.mk (PInt (MessageToSign.bidId m))
                             (PStr (MessageToSign.trader m))
                             (PStr (MessageToSign.token m))
                             (PInt (MessageToSign.amount m))
                             v r s)
  | _ => raise InvalidMessage
  end.

(** [Wallet.verify_allowance] *)
Definition verify_allowance (self : Wallet) (settlement_config : ContractConfig.t)
    (token_address : string) : M bool :=
  let token_config :=
    ContractConfig.mk token_address
                      (ContractConfig.rpc_uri settlement_config)
                      (ContractConfig.chain_id settlement_config) in
  token ← lift (ERC20Contract_new token_config);
  raw ← lift (ERC20Contract.get_allowance token (public_key self)
                (ContractConfig.address settlement_config));
  allowance ← lift (PyFloat.true_div raw (ERC20Contract.decimals token));
  mret (PyFloat.gt_int allowance MIN_ALLOWANCE).

(** Positional arguments of a dataclass constructor are bound to its
    fields in declaration order. *)
Definition bind_positional (fields : list string) (args : list pyval)
  : list (string * pyval) :=
  zip fields args.

Definition too_many_arguments : exn :=
  TypeError "__init__() takes 8 positional arguments".
Definition missing_argument : exn :=
  TypeError "__init__() missing required positional argument".

(** [OrderData] called with positional arguments: a field without argument takes its default; one
    without default makes the call fail. *)
Definition OrderData_new (args : list pyval) : result OrderData.t :=
  if (length OrderData.fields <? length args)%nat then Raise too_many_arguments
  else
    let bound : gmap string pyval :=
      list_to_map (bind_positional OrderData.fields args) in
    let field (f : string) : result pyval :=
      match bound !! f with
      | Some x => Ok x
      | None =>
          match OrderData_defaults !! f with
          | Some x => Ok x
          | None => Raise missing_argument
          end
      end in
    bidId ← field "bidId"%string;
    trader ← field "trader"%string;
    token ← field "token"%string;
    amount ← field "amount"%string;
    v ← field "v"%string;
    r ← field "r"%string;
    s ← field "s"%string;
    mret (OrderData.mk bidId trader token amount v r s).

(** The argument list of the [OrderData(...)] call in [settle_trade]. *)
Definition seller_order_args (response : gmap string pyval) : result (list pyval) :=
  bidId ← getattr response "bidId";
  trader ← getattr response "trader";
  amount ← getattr response "amount";
  v ← getattr response "v";
  r ← getattr response "r";
  s ← getattr response "s";
  mret [bidId; trader; amount; v; r; s].

(** [Wallet.settle_trade] *)
Definition settle_trade (self : Wallet) (auction_id : string)
    (settlement_config : ContractConfig.t) (bid_order : OrderData.t) : M unit :=
  _ ← lift (SettlementContract_new settlement_config);
  base ← lift (Py.add_str (relayer_url self) "/sdk/signature/auction/");
  let url := (base ++ auction_id ++ "/bid/"
                   ++ Py.str (OrderData.bidId bid_order))%string in
  _ ← emit (EvHttpGet url);
  response ← lift (requests_get_json url
                     [("Opyn-Cedefi-Bridge-X-API-Key"%string, relayer_token self)]);
  _ ← emit EvPrint;
  args ← lift (seller_order_args response);
  seller_order ← lift (OrderData_new args);
  _ ← emit (EvSettle bid_order seller_order);
  lift (settleRfq settlement_config (public_key self) (private_key self)
                  bid_order seller_order).

End Wallet.

(** The dictionary [sign_msg] returns for a signature and the two padded
    strings. *)
Definition signature_dict (sig : Signature.t) (rs ss : string) : gmap string pyval :=
  {[ "v"%string := PInt (Signature.v sig + 27);
     "r"%string := PStr rs;
     "s"%string := PStr ss ]}.

(* ===================================================================== *)
(** * Keccak-256 *)
(* ===================================================================== *)

(** The permutation Keccak-f[1600] on 25 lanes of 64 bits and the sponge
    with rate 136 bytes and the original Keccak padding, as Ethereum uses
    it.  Needed to compute checksummed addresses. *)
Module Keccak.

Definition rotl64 (x n : Z) : Z :=
  Z.land (Z.lor (Z.shiftl x n) (Z.shiftr x (64 - n))) (Z.ones 64).

Definition lnot64 (x : Z) : Z := Z.lxor x (Z.ones 64).

Definition RC : list Z :=
  [ 0x0000000000000001; 0x0000000000008082; 0x800000000000808a;
    0x8000000080008000; 0x000000000000808b; 0x0000000080000001;
    0x8000000080008081; 0x8000000000008009; 0x000000000000008a;
    0x0000000000000088; 0x0000000080008009; 0x000000008000000a;
    0x000000008000808b; 0x800000000000008b; 0x8000000000008089;
    0x8000000000008003; 0x8000000000008002; 0x8000000000000080;
    0x000000000000800a; 0x800000008000000a; 0x8000000080008081;
    0x8000000000008080; 0x0000000080000001; 0x8000000080008008 ].

Definition rotc : list Z :=
  [ 1; 3; 6; 10; 15; 21; 28; 36; 45; 55; 2; 14;
    27; 41; 56; 8; 25; 43; 62; 18; 39; 61; 20; 44 ].

Definition piln : list nat :=
  [ 10; 7; 11; 17; 18; 3; 5; 16; 8; 21; 24; 4;
    15; 23; 19; 13; 12; 2; 20; 14; 22; 9; 6; 1 ]%nat.

Definition lane (st : list Z) (i : nat) : Z := default 0 (st !! i).

Definition theta (st : list Z) : list Z :=
  let bc (i : nat) :=
    Z.lxor (lane st i)
      (Z.lxor (lane st (i + 5))
         (Z.lxor (lane st (i + 10))
            (Z.lxor (lane st (i + 15)) (lane st (i + 20))))) in
  let t (i : nat) :=
    Z.lxor (bc ((i + 4) mod 5)%nat) (rotl64 (bc ((i + 1) mod 5)%nat) 1) in
  imap (fun j x => Z.lxor x (t (j mod 5)%nat)) st.

Definition rho_pi (st : list Z) : list Z :=
  fst (fold_left
         (fun (acc : list Z * Z) (jr : nat * Z) =>
            let '(st, t) := acc in
            let '(j, r) := jr in
            (<[j := rotl64 t r]> st, lane st j))
         (zip piln rotc) (st, lane st 1)).

Definition chi (st : list Z) : list Z :=
  imap (fun k x =>
          let i := (k mod 5)%nat in
          let j := (k - i)%nat in
          Z.lxor x (Z.land (lnot64 (lane st (j + (i + 1) mod 5)))
                           (lane st (j + (i + 2) mod 5)))) st.

Definition iota (rc : Z) (st : list Z) : list Z :=
  <[O := Z.lxor (lane st 0) rc]> st.

Definition round (st : list Z) (rc : Z) : list Z :=
  iota rc (chi (rho_pi (theta st))).

Definition keccak_f (st : list Z) : list Z := fold_left round RC st.

(** Little-endian bytes <-> lane. *)
Definition le_to_Z (bs : list Z) : Z :=
  fold_right (fun b acc => b + 256 * acc) 0 bs.

Fixpoint Z_to_le (n : nat) (x : Z) : list Z :=
  match n with
  | O => []
  | S n' => x mod 256 :: Z_to_le n' (x / 256)
  end.

Definition rate : nat := 136.

Definition pad (len : nat) : list Z :=
  let p := (rate - len mod rate)%nat in
  match p with
  | 1%nat => [0x81]
  | _ => 0x01 :: replicate (p - 2) 0 ++ [0x80]
  end.

Definition xor_block (st : list Z) (block : list Z) : list Z :=
  imap (fun i x =>
          if (i <? 17)%nat
          then Z.lxor x (le_to_Z (take 8 (drop (8 * i) block)))
          else x) st.

Fixpoint absorb (fuel : nat) (st : list Z) (bs : list Z) : list Z :=
  match fuel, bs with
  | S fuel', _ :: _ =>
      absorb fuel' (keccak_f (xor_block st (take rate bs))) (drop rate bs)
  | _, _ => st
  end.

(** Keccak-256 of a byte string (bytes as integers 0..255). *)
Definition keccak256 (msg : list Z) : list Z :=
  let padded := msg ++ pad (length msg) in
  let st := absorb (length padded) (replicate 25 0) padded in
  flat_map (Z_to_le 8) (take 4 st).

End Keccak.

(* ===================================================================== *)
(** * Helpers of opyn.utils *)
(* ===================================================================== *)

Module Utils.

Definition to_lower (c : ascii) : ascii :=
  let n := nat_of_ascii c in
  if (Nat.leb 65 n && Nat.leb n 90)%bool then ascii_of_nat (n + 32) else c.

Definition to_upper (c : ascii) : ascii :=
  let n := nat_of_ascii c in
  if (Nat.leb 97 n && Nat.leb n 122)%bool then ascii_of_nat (n - 32) else c.

Fixpoint map_string (f : ascii -> ascii) (s : string) : string :=
  match s with
  | EmptyString => EmptyString
  | String c s' => String (f c) (map_string f s')
  end.

Fixpoint forall_string (p : ascii -> bool) (s : string) : bool :=
  match s with
  | EmptyString => true
  | String c s' => p c && forall_string p s'
  end.

Definition is_hex_char (c : ascii) : bool :=
  match Py.hex_value c with Some _ => true | None => false end.

Definition strip_0x (s : string) : string :=
  match s with
  | String "0" (String "x" rest) => rest
  | String "0" (String "X" rest) => rest
  | _ => s
  end.

(** The [i]-th 4-bit digit of a byte string, most significant first. *)
Definition nibble (h : list Z) (i : nat) : Z :=
  let b := default 0 (h !! (i / 2)%nat) in
  if Nat.even i then b / 16 else b mod 16.

Fixpoint checksum_case (h : list Z) (i : nat) (s : string) : string :=
  match s with
  | EmptyString => EmptyString
  | String c s' =>
      String (if 8 <=? nibble h i then to_upper c else c)
             (checksum_case h (S i) s')
  end.

Definition ascii_codes (s : string) : list Z :=
  map (fun c => Z.of_nat (nat_of_ascii c)) (list_ascii_of_string s).

(** EIP-55: the 40 lowercase digits, each letter in upper case when the
    matching digit of the Keccak-256 hash of the lowercase text is 8 or
    more. *)
Definition to_checksum (lower : string) : string :=
  ("0x" ++ checksum_case (Keccak.keccak256 (ascii_codes lower)) 0 lower)%string.

Definition MalformedAddress : exn := ValueError "invalid address".

(** Modelled from the spec: [get_address] of opyn.utils is not part of
    wallet.py.  It normalizes an Ethereum address to its checksummed
    form: 40 hexadecimal digits with an optional [0x] prefix are
    accepted in lower case, in upper case, or in mixed case carrying the
    right checksum; anything else fails checksum/format validation. *)
Definition get_address (address : string) : result string :=
  let body := strip_0x address in
  if negb (Nat.eqb (String.length body) 40 && forall_string is_hex_char body)
  then Raise MalformedAddress
  else
    let lower := map_string to_lower body in
    let sum := to_checksum lower in
    if String.eqb body lower
       || String.eqb body (map_string to_upper body)
       || String.eqb ("0x" ++ body) sum
    then Ok sum
    else Raise MalformedAddress.

(** [s.zfill(n)] on the digits: zeros on the left up to width [n]. *)
Fixpoint zeros (n : nat) : string :=
  match n with
  | O => EmptyString
  | S n' => String "0" (zeros n')
  end.

(** Modelled from the spec: [hex_zero_pad] of opyn.utils is not part of
    wallet.py.  It renders a [0x]-prefixed hexadecimal string as a
    [0x]-prefixed string left-padded with zeros to [length] bytes
    ([2 * length] digits); digits are never dropped. *)
Definition hex_zero_pad (value : string) (length : Z) : result string :=
  let digits := Py.slice_from 2 value in
  let width := Z.to_nat (2 * length) in
  Ok ("0x" ++ zeros (width - String.length digits) ++ digits)%string.

End Utils.

(** A string is the 32-byte rendering of [n]: ["0x"], then 64 lowercase
    hexadecimal digits whose value is [n]; 66 characters in all. *)
Definition renders32 (text : string) (n : Z) : Prop :=
  String.length text = 66%nat
  /\ exists digits,
       text = ("0x" ++ digits)%string
       /\ String.length digits = 64%nat
       /\ Utils.forall_string Py.is_lower_hex digits = true
       /\ Py.hex_val digits = n.

(* ===================================================================== *)
(** * A concrete set of collaborators *)
(* ===================================================================== *)

(** Stand-ins used to run the wallet on concrete inputs: a signer that
    returns a fixed signature, an encoder that returns a fixed digest, a
    token contract with a given allowance and [decimals], a relayer with
    a fixed response, and the address helpers above. *)
Module Demo.

Definition address_lower : string := "0x5aaeb6053f3e94c9b9a09f33669435e7ef1beaed".
Definition address : string := "0x5aAeb6053F3E94C9b9A09f33669435E7Ef1BeAed".
Definition other_address : string := "0xfB6916095ca1df60bB79Ce92cE3Ea74c37c5d359".
Definition key : string :=
  "0x4c0883a69102937d6231471b5dbb6204fe5129617082792ae468d01a3f362318".
Definition digest : string :=
  "0x1de5a3b1c1b2d4a7f0e9c8b7a6958473625140302f1e0d0c0b0a090807060504".

Definition signature : Signature.t := Signature.mk 1 5 (2 ^ 255 + 77).

(** The two integers of [signature] as 32-byte hexadecimal strings. *)
Definition r_text : string := "0x0000000000000000000000000000000000000000000000000000000000000005".
Definition s_text : string := "0x800000000000000000000000000000000000000000000000000000000000004d".

Definition response : gmap string pyval :=
  {[ "bidId"%string := PInt 7;
     "trader"%string := PStr other_address;
     "amount"%string := PInt 1000;
     "v"%string := PInt 28;
     "r"%string := PStr "0x01";
     "s"%string := PStr "0x02" ]}.

Definition env (raw decimals : Z) (defaults : gmap string pyval) : Env :=
  {| Signer := list byte;
     PrivateKey := fun bs => Ok bs;
     to_address := fun _ => address_lower;
     sign_msg_hash := fun _ _ => Ok signature;
     get_address := Utils.get_address;
     hex_zero_pad := Utils.hex_zero_pad;
     TypedDataEncoder_hash := fun _ _ _ => Ok digest;
     ERC20Contract_new := fun _ =>
       Ok (ERC20Contract.mk decimals (fun _ _ => Ok raw));
     SettlementContract_new := fun _ => Ok tt;
     settleRfq := fun _ _ _ _ _ => Ok tt;
     requests_get_json := fun _ _ => Ok response;
     OrderData_defaults := defaults |}.

Definition domain : Domain.t :=
  Domain.mk (Some "OPYN RFQ"%string) (Some "1"%string) (Some 1)
            (Some other_address) None.

Definition order (trader : string) : MessageToSign.t :=
  MessageToSign.mk 7 trader other_address 1000 3.

Definition config : ContractConfig.t :=
  ContractConfig.mk other_address "https://rpc.example"%string 1.

(** The environment most examples run in: an allowance of 600000001
    raw units on a token whose [decimals] is 6, no defaults on
    [OrderData]. *)
Definition E0 : Env := env 600000001 6 ∅.

(** The bytes of [key], which the stand-in signer is made of. *)
Definition key_bytes : list byte :=
  match Py.bytes_fromhex (Py.slice_from 2 key) with
  | Ok bs => bs
  | Raise _ => []
  end.

(** Wallets as [Wallet.__init__] leaves them. *)
Definition signing_wallet (E : Env) (sg : @Signer E) (public : string) : @Wallet E :=
  mkWallet (Some key) (Some public) (Some "https://relayer.example"%string)
           (Some "token"%string) (Some sg).

Definition watching_wallet (E : Env) (public : string) : @Wallet E :=
  mkWallet None (Some public) None None None.

End Demo.

(* ===================================================================== *)
(** * Bytes as numbers, and further string operations *)
(* ===================================================================== *)

Module Bytes.

Definition value (b : byte) : Z := Z.of_N (Byte.to_N b).

(** [int.from_bytes(bs, "big")] *)
Fixpoint be_value (bs : list byte) : Z :=
  match bs with
  | [] => 0
  | b :: bs' => value b * 256 ^ Z.of_nat (length bs') + be_value bs'
  end.

End Bytes.

Module PyStr.

(** [a + b] where [a] is a string and [b] a string or [None]. *)
Definition add_opt (a : string) (b : option string) : result string :=
  match b with
  | Some y => Ok (a ++ y)%string
  | None =>
      Raise (TypeError "can only concatenate str (not 'NoneType') to str")
  end.

End PyStr.

(* ===================================================================== *)
(** * class Wallet: the relayer query *)
(* ===================================================================== *)

Section WalletRelayer.
Context {E : Env}.

(** [Wallet.get_offer_details]; [auction_id] defaults to [None]. *)
Definition get_offer_details (self : Wallet) (auction_id : option string)
  : M (gmap string pyval) :=
  base ← lift (Py.add_str (relayer_url self) "auction/");
  url ← lift (PyStr.add_opt base auction_id);
  _ ← emit (EvHttpGet url);
  response ← lift (requests_get_json url []);
  auctionId ← lift (getattr response "auctionId");
  status ← lift (getattr response "status");
  mret ({[ "auctionId" := auctionId; "status" := status ]} : gmap string pyval).

End WalletRelayer.

(** The stand-in collaborators with another relayer response. *)
Definition demo_env_with_response (response : gmap string pyval) : Env :=
  {| Signer := list byte;
     PrivateKey := fun bs => Ok bs;
     to_address := fun _ => Demo.address_lower;
     sign_msg_hash := fun _ _ => Ok Demo.signature;
     get_address := Utils.get_address;
     hex_zero_pad := Utils.hex_zero_pad;
     TypedDataEncoder_hash := fun _ _ _ => Ok Demo.digest;
     ERC20Contract_new := fun _ =>
       Ok (ERC20Contract.mk 6 (fun _ _ => Ok 600000001));
     SettlementContract_new := fun _ => Ok tt;
     settleRfq := fun _ _ _ _ _ => Ok tt;
     requests_get_json := fun _ _ => Ok response;
     OrderData_defaults := ∅ |}.

Definition demo_auction : gmap string pyval :=
  {[ "auctionId" := PStr "42"; "status" := PStr "open" ]}.

Definition demo_env_auction : Env := demo_env_with_response demo_auction.


Definition demo_bid : OrderData.t :=
  OrderData.mk (PInt 7) (PStr Demo.address) (PStr Demo.other_address)
               (PInt 1000) (PInt 28) (PStr Demo.r_text) (PStr Demo.s_text).

(* ===================================================================== *)
(** * Examples of the built-ins *)
(* ===================================================================== *)

Example hex_255 : Py.hex 255 = "0xff"%string.
Proof. reflexivity. Qed.
Example hex_0 : Py.hex 0 = "0x0"%string.
Proof. reflexivity. Qed.
Example hex_neg : Py.hex (-4096) = "-0x1000"%string.
Proof. reflexivity. Qed.
Example fromhex_ok : Py.bytes_fromhex "0aFf 10" = Ok [x0a; xff; x10].
Proof. reflexivity. Qed.
Example fromhex_odd : Py.bytes_fromhex "0a1" = Raise Py.fromhex_error.
Proof. reflexivity. Qed.
Example true_div_7_2 :
  PyFloat.true_div 7 2 = Ok (PyFloat.mk false 7881299347898368 (-51)).
Proof. reflexivity. Qed.
Example true_div_1_3 :
  PyFloat.true_div 1 3 = Ok (PyFloat.mk false 6004799503160661 (-54)).
Proof. reflexivity. Qed.
(** [true_div] against the processor's division on operands below
    [2^53]: around the allowance threshold, with ties, with tiny and
    with large quotients. *)
Example true_div_matches_binary64 :
  forallb PyFloat.agrees_with_binary64
    [ (7, 2); (1, 3); (2, 3); (0, 5); (700000000, 6); (600000000, 6);
      (600000001, 6); (599999999, 6); (1800000001, 18); (1799999999, 18);
      (100000001, 1); (100000000, 1); (9007199254740991, 7);
      (1, 9007199254740991); (4503599627370497, 2); (4503599627370499, 2);
      (9007199254740991, 9007199254740990); (3, 1000000);
      (9007199254740991, 1); (6710886500000001, 67108863);
      (6710886300000000, 67108863); (6710886299999999, 67108863);
      (6710886300000001, 67108863); (123456789012345, 1000);
      (5, 4503599627370496); (9007199254740989, 4503599627370495) ] = true.
Proof. vm_compute. reflexivity. Qed.

Example true_div_by_zero :
  PyFloat.true_div 5 0 = Raise (ZeroDivisionError "division by zero").
Proof. reflexivity. Qed.

(** Keccak-256 of the empty string, and the EIP-55 test addresses. *)
Example keccak256_empty :
  Keccak.keccak256 [] =
  [ 0xc5; 0xd2; 0x46; 0x01; 0x86; 0xf7; 0x23; 0x3c; 0x92; 0x7e; 0x7d; 0xb2;
    0xdc; 0xc7; 0x03; 0xc0; 0xe5; 0x00; 0xb6; 0x53; 0xca; 0x82; 0x27; 0x3b;
    0x7b; 0xfa; 0xd8; 0x04; 0x5d; 0x85; 0xa4; 0x70 ].
Proof. vm_compute. reflexivity. Qed.

Example get_address_lower :
  Utils.get_address Demo.address_lower = Ok Demo.address.
Proof. vm_compute. reflexivity. Qed.
Example get_address_no_prefix :
  Utils.get_address "fb6916095ca1df60bb79ce92ce3ea74c37c5d359" = Ok Demo.other_address.
Proof. vm_compute. reflexivity. Qed.
Example get_address_upper :
  Utils.get_address "0xDBF03B407C01E7CD3CBEA99509D93F8DDDC8C6FB"
  = Ok "0xdbF03B407c01E7cD3CBea99509d93f8DDDC8C6FB"%string.
Proof. vm_compute. reflexivity. Qed.
Example get_address_checksummed :
  Utils.get_address "0xD1220A0cf47c7B9Be7A2E6BA89F429762e7b9aDb"
  = Ok "0xD1220A0cf47c7B9Be7A2E6BA89F429762e7b9aDb"%string.
Proof. vm_compute. reflexivity. Qed.
Example get_address_bad_checksum :
  Utils.get_address "0xD1220A0cf47c7B9Be7A2E6BA89F429762e7b9adb"
  = Raise Utils.MalformedAddress.
Proof. vm_compute. reflexivity. Qed.
Example get_address_short : Utils.get_address "0x1234" = Raise Utils.MalformedAddress.
Proof. vm_compute. reflexivity. Qed.

(* ===================================================================== *)
(** * The effect monad *)
(* ===================================================================== *)

Section Monad.
Context {A B : Type}.
Implicit Types (f : A -> M B).

Lemma bind_lift_ok (a : A) f : lift (Ok a) ≫= f = f a.
Proof. unfold mbind, M_bind, lift. destruct (f a) as [l r]. reflexivity. Qed.


Lemma bind_raise (e : exn) f : raise e ≫= f = ([], Raise e).
Proof. reflexivity. Qed.

Lemma bind_ret (a : A) f : mret a ≫= f = f a.
Proof. unfold mbind, M_bind, mret, M_ret. destruct (f a) as [l r]. reflexivity. Qed.

Lemma bind_emit (ev : event) (g : unit -> M B) :
  emit ev ≫= g = (ev :: trace (g tt), outcome (g tt)).
Proof. unfold mbind, M_bind, emit, trace, outcome. destruct (g tt). reflexivity. Qed.

(** The value of a sequence comes from its second part, which ran on the
    value of the first. *)
Lemma bind_ok_inv (c : M A) f (b : B) :
  outcome (c ≫= f) = Ok b ->
  exists a, outcome c = Ok a /\ outcome (f a) = Ok b
            /\ trace (c ≫= f) = trace c ++ trace (f a).
Proof.
  destruct c as [l [a | e]]; unfold mbind, M_bind, outcome, trace; simpl.
  - destruct (f a) as [l' r] eqn:Hf. simpl. intros ->. exists a.
    rewrite Hf. auto.
  - discriminate.
Qed.

End Monad.

(* ===================================================================== *)
(** * Order signing: the checks and their order *)
(* ===================================================================== *)

Section SignOrderChecks.
Context {E : Env}.
Implicit Types (self : Wallet) (domain : pyobj) (m : MessageToSign.t).

(** Once the private key is there, [sign_order_data] is decided by the
    normalized trader address. *)
Lemma sign_order_data_with_key self domain m :
  Py.truthy (private_key self) = true ->
  sign_order_data self domain (ObjMessageToSign m) =
  (signerWallet ← lift (get_address (MessageToSign.trader m));
   if bool_decide (Some signerWallet <> public_key self)
   then raise SignerMismatch
   else
     signature ← _sign_type_data_v4 self domain MESSAGE_TYPES
                                    (asdict_MessageToSign m);
     v ← lift (subscript signature "v");
     r ← lift (subscript signature "r");
     s ← lift (subscript signature "s");
     mret (OrderData.mk (PInt (MessageToSign.bidId m))
                        (PStr (MessageToSign.trader m))
                        (PStr (MessageToSign.token m))
                        (PInt (MessageToSign.amount m))
                        v r s)).
Proof. intros Hk. unfold sign_order_data. rewrite Hk. reflexivity. Qed.

Lemma sign_order_data_without_key self domain m :
  Py.truthy (private_key self) = false ->
  sign_order_data self domain (ObjMessageToSign m) = ([], Raise MissingPrivateKey).
Proof. intros Hk. unfold sign_order_data. rewrite Hk. reflexivity. Qed.

Lemma sign_order_data_mismatch self domain m (a : string) :
  Py.truthy (private_key self) = true ->
  get_address (MessageToSign.trader m) = Ok a ->
  Some a <> public_key self ->
  sign_order_data self domain (ObjMessageToSign m) = ([], Raise SignerMismatch).
Proof.
  intros Hk Ha Hne. rewrite sign_order_data_with_key by exact Hk.
  rewrite Ha, bind_lift_ok. rewrite bool_decide_eq_true_2 by exact Hne.
  reflexivity.
Qed.



(** C4 (amended): a domain that is not a [Domain] instance makes
    [sign_order_data] fail without hashing or signing anything, and the
    error is the invalid-domain error exactly when the checks that run
    before it pass: the private key is present and the trader
    normalizes to the wallet's own address.  Otherwise the error of the
    first failing earlier check is raised. *)
Theorem domain_check_follows_wallet_checks self domain m :
  (forall d, domain <> ObjDomain d) ->
  sign_order_data self domain (ObjMessageToSign m) =
  ([], Raise (if negb (Py.truthy (private_key self)) then MissingPrivateKey
              else match get_address (MessageToSign.trader m) with
                   | Raise e => e
                   | Ok a => if bool_decide (Some a <> public_key self)
                             then SignerMismatch else InvalidDomain
                   end)).
Proof.
  intros Hd.
  destruct (Py.truthy (private_key self)) eqn:Hk; cbn [negb].
  - rewrite sign_order_data_with_key by exact Hk.
    destruct (get_address (MessageToSign.trader m)) as [a | e].
    + rewrite bind_lift_ok.
      destruct (bool_decide (Some a <> public_key self)); [reflexivity |].
      destruct domain as [d | | |]; try reflexivity.
      by destruct (Hd d).
    + reflexivity.
  - by apply sign_order_data_without_key.
Qed.

(** A wallet built from a public key only has no signer: [sign_msg]
    stops at the attribute lookup. *)
Lemma sign_msg_no_signer self (messageHash : string) :
  signer self = None ->
  sign_msg self messageHash = ([], Raise NoSignerAttribute).
Proof. intros Hs. unfold sign_msg. rewrite Hs. reflexivity. Qed.

Lemma Wallet_init_public_only (public : string) (url tok : option string) :
  Py.truthy (Some public) = true ->
  Wallet_init (Some public) None url tok
  = Ok (mkWallet None (Some public) url tok None).
Proof. intros Hp. unfold Wallet_init. simpl Py.truthy at 1. rewrite Hp. reflexivity. Qed.

(** C3: what the code does for a wallet built from a public address
    only.  [sign_order_data] stops with the missing-private-key error;
    [sign_msg], called on a digest, stops with an attribute error
    instead, because [__init__] never set [signer]. *)
Theorem sign_msg_public_only_wallet (public : string) (url tok : option string)
    (messageHash : string) domain m :
  Py.truthy (Some public) = true ->
  exists w, Wallet_init (Some public) None url tok = Ok w
    /\ sign_order_data w domain (ObjMessageToSign m) = ([], Raise MissingPrivateKey)
    /\ sign_msg w messageHash = ([], Raise NoSignerAttribute)
    /\ NoSignerAttribute <> MissingPrivateKey.
Proof.
  intros Hp. eexists. split; [by apply Wallet_init_public_only |].
  split; [reflexivity |]. split; [reflexivity | discriminate].
Qed.

End SignOrderChecks.

(* ===================================================================== *)
(** * Signing: what reaches the encoder and what comes back *)
(* ===================================================================== *)

Section Signing.
Context {E : Env}.
Implicit Types (self : Wallet) (domain : pyobj) (m : MessageToSign.t).

Lemma signature_dict_v sig rs ss :
  signature_dict sig rs ss !! "v"%string = Some (PInt (Signature.v sig + 27)).
Proof. reflexivity. Qed.
Lemma signature_dict_r sig rs ss :
  signature_dict sig rs ss !! "r"%string = Some (PStr rs).
Proof. reflexivity. Qed.
Lemma signature_dict_s sig rs ss :
  signature_dict sig rs ss !! "s"%string = Some (PStr ss).
Proof. reflexivity. Qed.

(** A successful [sign_msg] called the signer once, on the bytes of the
    hash, and returns the offset recovery id and the padded integers. *)
Lemma sign_msg_ok_inv self (messageHash : string) (out : gmap string pyval) :
  outcome (sign_msg self messageHash) = Ok out ->
  exists sg bs sig rs ss,
    signer self = Some sg
    /\ Py.bytes_fromhex (Py.slice_from 2 messageHash) = Ok bs
    /\ sign_msg_hash sg bs = Ok sig
    /\ hex_zero_pad (Py.hex (Signature.r sig)) 32 = Ok rs
    /\ hex_zero_pad (Py.hex (Signature.s sig)) 32 = Ok ss
    /\ out = signature_dict sig rs ss
    /\ trace (sign_msg self messageHash) = [EvSign bs].
Proof.
  unfold sign_msg.
  destruct (signer self) as [sg |] eqn:Hs; [| discriminate].
  rewrite bind_lift_ok.
  destruct (Py.bytes_fromhex (Py.slice_from 2 messageHash)) as [bs | e] eqn:Hb;
    [| discriminate].
  rewrite bind_lift_ok, bind_emit.
  destruct (sign_msg_hash sg bs) as [sig | e] eqn:Hsig; [| discriminate].
  rewrite bind_lift_ok.
  destruct (hex_zero_pad (Py.hex (Signature.r sig)) 32) as [rs | e] eqn:Hr;
    [| discriminate].
  rewrite bind_lift_ok.
  destruct (hex_zero_pad (Py.hex (Signature.s sig)) 32) as [ss | e] eqn:Hss;
    [| discriminate].
  rewrite bind_lift_ok. cbn. intros [= <-].
  exists sg, bs, sig, rs, ss. repeat split; done.
Qed.

(** C5: the [v] that [sign_msg] returns is the signer's raw recovery id
    plus 27; as the signer's recovery id is 0 or 1, [v] is 27 or 28. *)
Theorem sign_msg_v_offset self (messageHash : string) (out : gmap string pyval) :
  (forall sg bs sig, sign_msg_hash sg bs = Ok sig ->
                     Signature.v sig = 0 \/ Signature.v sig = 1) ->
  outcome (sign_msg self messageHash) = Ok out ->
  exists sg bs sig,
    signer self = Some sg
    /\ Py.bytes_fromhex (Py.slice_from 2 messageHash) = Ok bs
    /\ sign_msg_hash sg bs = Ok sig
    /\ out !! "v"%string = Some (PInt (Signature.v sig + 27))
    /\ (out !! "v"%string = Some (PInt 27) \/ out !! "v"%string = Some (PInt 28)).
Proof.
  intros Hrec Hout.
  apply sign_msg_ok_inv in Hout
    as (sg & bs & sig & rs & ss & Hs & Hb & Hsig & _ & _ & -> & _).
  exists sg, bs, sig. rewrite signature_dict_v.
  repeat split; try assumption.
  destruct (Hrec _ _ _ Hsig) as [-> | ->]; [left | right]; reflexivity.
Qed.




Lemma sign_type_data_ok_inv self domain
    (types : gmap string (list (string * string))) (value out : gmap string pyval) :
  outcome (_sign_type_data_v4 self domain types value) = Ok out ->
  exists d h,
    domain = ObjDomain d
    /\ TypedDataEncoder_hash (drop_none (asdict_Domain d)) types value = Ok h
    /\ outcome (sign_msg self h) = Ok out.
Proof.
  destruct domain as [d | | |]; try discriminate.
  unfold _sign_type_data_v4. rewrite bind_emit. cbn [outcome snd].
  destruct (TypedDataEncoder_hash (drop_none (asdict_Domain d)) types value)
    as [h | e] eqn:Hh; [| discriminate].
  rewrite bind_lift_ok. intros Hout. by exists d, h.
Qed.

(** C8: an order returned by [sign_order_data] carries the bid id,
    trader, token and amount of the order it was given, and [v], [r],
    [s] are the offset recovery id and the padded integers of the
    signature the signer computed over the digest of that order under
    the domain's present fields. *)
Theorem sign_order_data_result self domain (message_to_sign : pyobj)
    (od : OrderData.t) :
  outcome (sign_order_data self domain message_to_sign) = Ok od ->
  exists m d h sg bs sig rs ss,
    message_to_sign = ObjMessageToSign m
    /\ domain = ObjDomain d
    /\ OrderData.bidId od = PInt (MessageToSign.bidId m)
    /\ OrderData.trader od = PStr (MessageToSign.trader m)
    /\ OrderData.token od = PStr (MessageToSign.token m)
    /\ OrderData.amount od = PInt (MessageToSign.amount m)
    /\ TypedDataEncoder_hash (drop_none (asdict_Domain d)) MESSAGE_TYPES
                             (asdict_MessageToSign m) = Ok h
    /\ Py.bytes_fromhex (Py.slice_from 2 h) = Ok bs
    /\ signer self = Some sg
    /\ sign_msg_hash sg bs = Ok sig
    /\ OrderData.v od = PInt (Signature.v sig + 27)
    /\ hex_zero_pad (Py.hex (Signature.r sig)) 32 = Ok rs
    /\ OrderData.r od = PStr rs
    /\ hex_zero_pad (Py.hex (Signature.s sig)) 32 = Ok ss
    /\ OrderData.s od = PStr ss.
Proof.
  intros Hod.
  destruct message_to_sign as [| m | |]; try discriminate.
  destruct (Py.truthy (private_key self)) eqn:Hk;
    [| by rewrite sign_order_data_without_key in Hod].
  rewrite sign_order_data_with_key in Hod by exact Hk.
  destruct (get_address (MessageToSign.trader m)) as [a | e]; [| discriminate].
  rewrite bind_lift_ok in Hod.
  destruct (bool_decide (Some a <> public_key self)); [discriminate |].
  apply bind_ok_inv in Hod as (sigd & Hsig & Hod & _).
  apply sign_type_data_ok_inv in Hsig as (d & h & -> & Hh & Hsig).
  apply sign_msg_ok_inv in Hsig
    as (sg & bs & sig & rs & ss & Hs & Hb & Hsg & Hr & Hss & -> & _).
  unfold subscript in Hod.
  rewrite signature_dict_v, signature_dict_r, signature_dict_s in Hod.
  rewrite !bind_lift_ok in Hod. cbn in Hod. injection Hod as <-.
  exists m, d, h, sg, bs, sig, rs, ss. repeat split; done.
Qed.

End Signing.

(* ===================================================================== *)
(** * Construction with a supplied public key *)
(* ===================================================================== *)

Section SuppliedPublicKey.
Context {E : Env}.

(** With both keys supplied, [__init__] builds the signer and keeps the
    public key string as it was given. *)
Lemma Wallet_init_both_keys (public private : string) (url tok : option string)
    (w : Wallet) :
  Py.truthy (Some public) = true ->
  Py.truthy (Some private) = true ->
  Wallet_init (Some public) (Some private) url tok = Ok w ->
  exists sg, w = mkWallet (Some private) (Some public) url tok (Some sg).
Proof.
  intros Hpub Hpriv. unfold Wallet_init. rewrite Hpub, Hpriv. cbn [negb andb].
  destruct (Py.bytes_fromhex (Py.slice_from 2 private)) as [bs | e];
    [| discriminate].
  destruct (PrivateKey bs) as [sg | e]; [| discriminate].
  intros [= <-]. by exists sg.
Qed.

(** C9: a wallet built with a caller-supplied public key keeps that
    string verbatim, and [sign_order_data] compares it with the
    normalized trader address; so when the supplied string is another
    rendering of the trader's account (both normalize to the same
    address) that is not itself in normalized form, signing stops with
    the signer-mismatch error. *)
Theorem supplied_public_key_compared_verbatim
    (public private : string) (url tok : option string) (w : Wallet)
    (domain : pyobj) (m : MessageToSign.t) (a : string) :
  Py.truthy (Some public) = true ->
  Py.truthy (Some private) = true ->
  Wallet_init (Some public) (Some private) url tok = Ok w ->
  get_address (MessageToSign.trader m) = Ok a ->
  get_address public = Ok a ->
  public <> a ->
  public_key w = Some public
  /\ sign_order_data w domain (ObjMessageToSign m) = ([], Raise SignerMismatch).
Proof.
  intros Hpub Hpriv Hw Ha _ Hne.
  destruct (Wallet_init_both_keys _ _ _ _ _ Hpub Hpriv Hw) as [sg ->].
  split; [reflexivity |].
  apply sign_order_data_mismatch with a; [exact Hpriv | exact Ha |].
  cbn. intros [= ->]. by apply Hne.
Qed.

End SuppliedPublicKey.

(* ===================================================================== *)
(** * Settlement: the seller order *)
(* ===================================================================== *)

Section SettleTrade.
Context {E : Env}.



End SettleTrade.

(* ===================================================================== *)
(** * Hexadecimal rendering and padding *)
(* ===================================================================== *)

Section HexRendering.

Local Ltac digit_cases d :=
  assert (d = 0 \/ d = 1 \/ d = 2 \/ d = 3 \/ d = 4 \/ d = 5 \/ d = 6 \/ d = 7
          \/ d = 8 \/ d = 9 \/ d = 10 \/ d = 11 \/ d = 12 \/ d = 13 \/ d = 14
          \/ d = 15) as Hcases by lia;
  repeat (destruct Hcases as [-> | Hcases]); [..| subst d].

Lemma hex_digit_value (d : Z) :
  0 <= d < 16 -> Py.hex_value (Py.hex_digit d) = Some d.
Proof. intros Hd. digit_cases d; reflexivity. Qed.

Lemma hex_digit_lower (d : Z) :
  0 <= d < 16 -> Py.is_lower_hex (Py.hex_digit d) = true.
Proof. intros Hd. digit_cases d; reflexivity. Qed.

Lemma pow16_succ (k : nat) : 16 ^ Z.of_nat (S k) = 16 * 16 ^ Z.of_nat k.
Proof. rewrite Nat2Z.inj_succ, Z.pow_succ_r by lia. reflexivity. Qed.

Lemma pow16_pos (k : nat) : 0 < 16 ^ Z.of_nat k.
Proof. apply Z.pow_pos_nonneg; lia. Qed.

(** With enough fuel the digits denote the number, in front of what was
    accumulated. *)
Lemma hex_digits_val (fuel : nat) : forall (n : Z) (acc : string),
  0 <= n < 16 ^ Z.of_nat (S fuel) ->
  Py.hex_val (Py.hex_digits fuel n acc)
  = n * 16 ^ Z.of_nat (String.length acc) + Py.hex_val acc.
Proof.
  induction fuel as [| fuel IH]; intros n acc Hn.
  - change (16 ^ Z.of_nat 1) with 16 in Hn.
    cbn [Py.hex_digits Py.hex_val].
    rewrite Z.mod_small, hex_digit_value by lia. reflexivity.
  - cbn [Py.hex_digits]. destruct (n <? 16) eqn:Hlt.
    + apply Z.ltb_lt in Hlt. cbn [Py.hex_val].
      rewrite hex_digit_value by lia. reflexivity.
    + apply Z.ltb_ge in Hlt. rewrite IH.
      * cbn [Py.hex_val String.length].
        rewrite hex_digit_value by (apply Z.mod_pos_bound; lia).
        rewrite pow16_succ. cbn [default].
        pose proof (Z.div_mod n 16 ltac:(lia)) as Hdm.
        rewrite Hdm at 3. unfold id. ring.
      * rewrite pow16_succ in Hn. split; [apply Z.div_pos; lia |].
        apply Z.div_lt_upper_bound; lia.
Qed.

(** A number below [16^k] has at most [k] digits. *)
Lemma hex_digits_length (fuel : nat) : forall (n : Z) (acc : string) (k : nat),
  0 <= n < 16 ^ Z.of_nat (S k) ->
  (String.length (Py.hex_digits fuel n acc) <= S k + String.length acc)%nat.
Proof.
  induction fuel as [| fuel IH]; intros n acc k Hn.
  - cbn. lia.
  - cbn [Py.hex_digits]. destruct (n <? 16) eqn:Hlt.
    + cbn. lia.
    + apply Z.ltb_ge in Hlt. destruct k as [| k].
      * change (16 ^ Z.of_nat 1) with 16 in Hn. lia.
      * specialize (IH (n / 16) (String (Py.hex_digit (n mod 16)) acc) k).
        cbn [String.length] in IH. etransitivity; [apply IH | lia].
        rewrite pow16_succ in Hn. split; [apply Z.div_pos; lia |].
        apply Z.div_lt_upper_bound; lia.
Qed.

Lemma hex_digits_lower (fuel : nat) : forall (n : Z) (acc : string),
  0 <= n ->
  Utils.forall_string Py.is_lower_hex acc = true ->
  Utils.forall_string Py.is_lower_hex (Py.hex_digits fuel n acc) = true.
Proof.
  induction fuel as [| fuel IH]; intros n acc Hn Hacc.
  - cbn. rewrite hex_digit_lower by (apply Z.mod_pos_bound; lia). exact Hacc.
  - cbn [Py.hex_digits]. destruct (n <? 16) eqn:Hlt.
    + apply Z.ltb_lt in Hlt. cbn. by rewrite hex_digit_lower by lia.
    + apply IH; [apply Z.div_pos; lia |].
      cbn. by rewrite hex_digit_lower by (apply Z.mod_pos_bound; lia).
Qed.

(** The fuel [hex] gives is enough. *)
Lemma hex_fuel (n : Z) :
  0 <= n -> n < 16 ^ Z.of_nat (S (Z.to_nat (Z.log2 n))).
Proof.
  intros Hn. destruct (Z.eq_dec n 0) as [-> | Hnz]; [reflexivity |].
  pose proof (Z.log2_nonneg n) as Hl.
  destruct (Z.log2_spec n ltac:(lia)) as [_ Hub].
  eapply Z.lt_le_trans; [exact Hub |].
  rewrite Nat2Z.inj_succ, Z2Nat.id by lia.
  transitivity (2 ^ (4 * Z.succ (Z.log2 n))).
  - apply Z.pow_le_mono_r; lia.
  - rewrite Z.pow_mul_r by lia. reflexivity.
Qed.

Lemma length_append (s1 s2 : string) :
  String.length (s1 ++ s2) = (String.length s1 + String.length s2)%nat.
Proof.
  induction s1 as [| c s1 IH]; [reflexivity |].
  simpl. by rewrite IH.
Qed.

Lemma length_zeros (k : nat) : String.length (Utils.zeros k) = k.
Proof.
  induction k as [| k IH]; [reflexivity |].
  cbn [Utils.zeros String.length]. by rewrite IH.
Qed.

Lemma hex_val_zeros (k : nat) (s : string) :
  Py.hex_val (Utils.zeros k ++ s) = Py.hex_val s.
Proof.
  induction k as [| k IH]; [reflexivity |].
  change (Py.hex_val (Utils.zeros (S k) +:+ s))
    with (0 * 16 ^ Z.of_nat (String.length (Utils.zeros k +:+ s))
          + Py.hex_val (Utils.zeros k +:+ s)).
  rewrite IH. lia.
Qed.

Lemma lower_hex_zeros (k : nat) (s : string) :
  Utils.forall_string Py.is_lower_hex s = true ->
  Utils.forall_string Py.is_lower_hex (Utils.zeros k ++ s) = true.
Proof. intros Hs. induction k as [| k IH]; simpl; [exact Hs | exact IH]. Qed.

(** Padding what [hex] gives for a 256-bit integer to 32 bytes. *)
Lemma hex_zero_pad_hex (n : Z) :
  0 <= n < 2 ^ 256 ->
  exists text, Utils.hex_zero_pad (Py.hex n) 32 = Ok text /\ renders32 text n.
Proof.
  intros Hn. unfold Utils.hex_zero_pad, Py.hex.
  replace (n <? 0) with false by (symmetry; apply Z.ltb_ge; lia).
  rewrite Z.abs_eq by lia.
  change (Py.slice_from 2 ("0x" +:+ ?d)) with d.
  set (digits := Py.hex_digits (Z.to_nat (Z.log2 n)) n "").
  assert (Hlen : (String.length digits <= 64)%nat).
  { pose proof (hex_digits_length (Z.to_nat (Z.log2 n)) n "" 63) as H.
    cbn [String.length] in H. unfold digits.
    etransitivity; [apply H | lia].
    change (16 ^ Z.of_nat 64) with (2 ^ 256). lia. }
  eexists. split; [reflexivity |].
  change (Z.to_nat (2 * 32)) with 64%nat.
  assert (Hpad : String.length (Utils.zeros (64 - String.length digits) ++ digits)
                 = 64%nat).
  { rewrite length_append, length_zeros. lia. }
  split; [by rewrite length_append, Hpad |].
  eexists. split; [reflexivity |]. split; [exact Hpad |]. split.
  - apply lower_hex_zeros. by apply hex_digits_lower; [lia |].
  - rewrite hex_val_zeros. unfold digits.
    rewrite hex_digits_val by (split; [lia | apply hex_fuel; lia]).
    cbn. lia.
Qed.

End HexRendering.

Section PaddedSignature.
Context {E : Env}.

(** C6: with [hex_zero_pad] padding on the left to 32 bytes, the [r] and
    [s] that [sign_msg] returns for a signature of two 256-bit integers
    are each ["0x"] followed by exactly 64 lowercase hexadecimal digits
    (66 characters) whose value is the integer, whatever its
    magnitude. *)
Theorem sign_msg_r_s_padded (self : Wallet) (messageHash : string)
    (out : gmap string pyval) :
  hex_zero_pad = Utils.hex_zero_pad ->
  (forall sg bs sig, sign_msg_hash sg bs = Ok sig ->
                     0 <= Signature.r sig < 2 ^ 256
                     /\ 0 <= Signature.s sig < 2 ^ 256) ->
  outcome (sign_msg self messageHash) = Ok out ->
  exists sg bs sig rs ss,
    signer self = Some sg
    /\ Py.bytes_fromhex (Py.slice_from 2 messageHash) = Ok bs
    /\ sign_msg_hash sg bs = Ok sig
    /\ out !! "r"%string = Some (PStr rs)
    /\ out !! "s"%string = Some (PStr ss)
    /\ renders32 rs (Signature.r sig)
    /\ renders32 ss (Signature.s sig).
Proof.
  intros Hpad Hrange Hout.
  apply sign_msg_ok_inv in Hout
    as (sg & bs & sig & rs & ss & Hs & Hb & Hsig & Hr & Hss & -> & _).
  destruct (Hrange _ _ _ Hsig) as [Hrr Hrs].
  rewrite Hpad in Hr, Hss.
  destruct (hex_zero_pad_hex _ Hrr) as (tr & Htr & Hrend_r).
  destruct (hex_zero_pad_hex _ Hrs) as (ts & Hts & Hrend_s).
  rewrite Htr in Hr. rewrite Hts in Hss.
  injection Hr as <-. injection Hss as <-.
  exists sg, bs, sig, tr, ts.
  split; [exact Hs |]. split; [exact Hb |]. split; [exact Hsig |].
  split; [apply signature_dict_r |]. split; [apply signature_dict_s |].
  split; assumption.
Qed.

End PaddedSignature.

(* ===================================================================== *)
(** * The allowance check *)
(* ===================================================================== *)

Section TrueDivision.

(** Rounding to nearest never crosses an integer. *)
Lemma round_half_even_ge (K num den : Z) :
  0 < den -> K * den <= num -> K <= PyFloat.round_half_even num den.
Proof.
  intros Hden HK. unfold PyFloat.round_half_even.
  assert (K <= num / den) by (apply Z.div_le_lower_bound; lia).
  repeat case_match; lia.
Qed.

Lemma round_half_even_le (K num den : Z) :
  0 < den -> num <= K * den -> PyFloat.round_half_even num den <= K.
Proof.
  intros Hden HK. unfold PyFloat.round_half_even.
  pose proof (Z.div_mod num den ltac:(lia)) as Hdm.
  pose proof (Z.mod_pos_bound num den Hden) as Hr.
  assert (num / den <= K) by nia.
  destruct (2 * (num mod den) <? den) eqn:Hlt; [lia |].
  apply Z.ltb_ge in Hlt.
  assert (num / den < K) by nia.
  repeat case_match; lia.
Qed.

(** [quot_log2] is a lower bound of the quotient's magnitude. *)
Lemma quot_log2_reaches (a b : Z) :
  0 < a -> 0 < b -> 0 <= PyFloat.quot_log2 a b ->
  b * 2 ^ PyFloat.quot_log2 a b <= a.
Proof.
  intros Ha Hb. unfold PyFloat.quot_log2.
  destruct (Z.log2_spec a Ha) as [Hla _].
  destruct (Z.log2_spec b Hb) as [_ Hlb].
  pose proof (Z.log2_nonneg b) as Hnb.
  set (d := Z.log2 a - Z.log2 b) in *.
  destruct (0 <=? d) eqn:Hd.
  - apply Z.leb_le in Hd.
    destruct (b * 2 ^ d <=? a) eqn:Hreach; intros Hk.
    + by apply Z.leb_le.
    + assert (Hpow : 2 ^ Z.succ (Z.log2 b) * 2 ^ (d - 1) = 2 ^ Z.log2 a).
      { rewrite <- Z.pow_add_r by lia. f_equal. unfold d. lia. }
      assert (0 < 2 ^ (d - 1)) by (apply Z.pow_pos_nonneg; lia).
      nia.
  - apply Z.leb_gt in Hd.
    destruct (b <=? a * 2 ^ (- d)); intros Hk; lia.
Qed.


End TrueDivision.

Section VerifyAllowance.
Context {E : Env}.


End VerifyAllowance.

(* ===================================================================== *)
(** * Concrete runs *)
(* ===================================================================== *)

Example Wallet_init_demo :
  Wallet_init (E := Demo.E0) (Some Demo.address) (Some Demo.key)
              (Some "https://relayer.example") (Some "token")
  = Ok (Demo.signing_wallet Demo.E0 Demo.key_bytes Demo.address).
Proof. reflexivity. Qed.



(** Outside the range of the theorem above the rounding of the quotient
    shows: one raw unit above the threshold is lost when [decimals] is
    as large as [10^18], and a [decimals] of zero makes the division
    fail. *)
Example verify_allowance_rounds :
  verify_allowance (E := Demo.env (MIN_ALLOWANCE * 10 ^ 18 + 1) (10 ^ 18) ∅)
                   (Demo.watching_wallet _ Demo.address)
                   Demo.config Demo.other_address
  = ([], Ok false).
Proof. vm_compute. reflexivity. Qed.

Example verify_allowance_zero_decimals :
  verify_allowance (E := Demo.env 5 0 ∅)
                   (Demo.watching_wallet _ Demo.address)
                   Demo.config Demo.other_address
  = ([], Raise (ZeroDivisionError "division by zero")).
Proof. vm_compute. reflexivity. Qed.


Lemma sign_msg_public_only_wallet_witness :
  exists w, Wallet_init (E := Demo.E0) (Some Demo.address) None None None = Ok w
    /\ sign_order_data w (ObjDomain Demo.domain)
                       (ObjMessageToSign (Demo.order Demo.address))
       = ([], Raise MissingPrivateKey)
    /\ sign_msg w Demo.digest = ([], Raise NoSignerAttribute)
    /\ NoSignerAttribute <> MissingPrivateKey.
Proof.
  exact (sign_msg_public_only_wallet (E := Demo.E0) Demo.address None None
           Demo.digest (ObjDomain Demo.domain) (Demo.order Demo.address) eq_refl).
Defined.

(** The domain is not validated first: a wallet without private key
    given something that is no [Domain] stops with the
    missing-private-key error; and a [Domain] without any field is not
    rejected by the wallet, its empty dictionary reaches the encoder and
    the signer is called. *)
Lemma domain_not_validated_first :
  sign_order_data (E := Demo.E0) (Demo.watching_wallet _ Demo.address)
                  (ObjVal PNone) (ObjMessageToSign (Demo.order Demo.address))
  = ([], Raise MissingPrivateKey)
  /\ MissingPrivateKey <> InvalidDomain
  /\ trace (sign_order_data (E := Demo.E0)
              (Demo.signing_wallet Demo.E0 Demo.key_bytes Demo.address)
              (ObjDomain (Domain.mk None None None None None))
              (ObjMessageToSign (Demo.order Demo.address)))
     = [ EvHash ∅ MESSAGE_TYPES (asdict_MessageToSign (Demo.order Demo.address));
         EvSign (match Py.bytes_fromhex (Py.slice_from 2 Demo.digest) with
                 | Ok bs => bs
                 | Raise _ => []
                 end) ].
Proof.
  split; [reflexivity |]. split; [discriminate |]. vm_compute. reflexivity.
Qed.

Lemma domain_check_follows_wallet_checks_witness :
  sign_order_data (E := Demo.E0)
    (Demo.signing_wallet Demo.E0 Demo.key_bytes Demo.address)
    (ObjVal PNone) (ObjMessageToSign (Demo.order Demo.address_lower))
  = ([], Raise InvalidDomain).
Proof.
  etransitivity.
  - apply (domain_check_follows_wallet_checks (E := Demo.E0)).
    intros d. discriminate.
  - vm_compute. reflexivity.
Defined.

(** The stand-in signer returns recovery id 1 and integers of 256 bits. *)
Lemma demo_signature_shape (sg : @Signer Demo.E0) (bs : list byte) (sig : Signature.t) :
  sign_msg_hash sg bs = Ok sig -> sig = Demo.signature.
Proof. intros [= <-]. reflexivity. Qed.

Lemma demo_recovery_id (sg : @Signer Demo.E0) (bs : list byte) (sig : Signature.t) :
  sign_msg_hash sg bs = Ok sig -> Signature.v sig = 0 \/ Signature.v sig = 1.
Proof. intros Hsig. rewrite (demo_signature_shape _ _ _ Hsig). by right. Qed.

Lemma demo_signature_in_range (sg : @Signer Demo.E0) (bs : list byte)
    (sig : Signature.t) :
  sign_msg_hash sg bs = Ok sig ->
  0 <= Signature.r sig < 2 ^ 256 /\ 0 <= Signature.s sig < 2 ^ 256.
Proof.
  intros Hsig. rewrite (demo_signature_shape _ _ _ Hsig).
  vm_compute. repeat split; (discriminate || reflexivity).
Qed.

Lemma sign_msg_v_offset_witness :
  exists out,
    outcome (sign_msg (E := Demo.E0)
               (Demo.signing_wallet Demo.E0 Demo.key_bytes Demo.address)
               Demo.digest) = Ok out
    /\ out !! "v" = Some (PInt 28).
Proof.
  exists (signature_dict Demo.signature Demo.r_text Demo.s_text).
  assert (Hrun : outcome (sign_msg (E := Demo.E0)
               (Demo.signing_wallet Demo.E0 Demo.key_bytes Demo.address)
               Demo.digest)
             = Ok (signature_dict Demo.signature Demo.r_text Demo.s_text))
    by (vm_compute; reflexivity).
  split; [exact Hrun |].
  destruct (sign_msg_v_offset (E := Demo.E0)
              (Demo.signing_wallet Demo.E0 Demo.key_bytes Demo.address)
              Demo.digest
              (signature_dict Demo.signature Demo.r_text Demo.s_text)
              demo_recovery_id
              Hrun)
    as (sg & bs & sig & _ & _ & Hsig & Hv & _).
  rewrite (demo_signature_shape _ _ _ Hsig) in Hv. exact Hv.
Defined.

Lemma sign_msg_r_s_padded_witness :
  exists out,
    outcome (sign_msg (E := Demo.E0)
               (Demo.signing_wallet Demo.E0 Demo.key_bytes Demo.address)
               Demo.digest) = Ok out
    /\ out !! "r"
       = Some (PStr "0x0000000000000000000000000000000000000000000000000000000000000005")
    /\ renders32 Demo.r_text 5
    /\ out !! "s" = Some (PStr Demo.s_text)
    /\ renders32 Demo.s_text (2 ^ 255 + 77).
Proof.
  exists (signature_dict Demo.signature Demo.r_text Demo.s_text).
  assert (Hrun : outcome (sign_msg (E := Demo.E0)
               (Demo.signing_wallet Demo.E0 Demo.key_bytes Demo.address)
               Demo.digest)
             = Ok (signature_dict Demo.signature Demo.r_text Demo.s_text))
    by (vm_compute; reflexivity).
  split; [exact Hrun |].
  destruct (sign_msg_r_s_padded (E := Demo.E0)
              (Demo.signing_wallet Demo.E0 Demo.key_bytes Demo.address)
              Demo.digest
              (signature_dict Demo.signature Demo.r_text Demo.s_text)
              eq_refl
              demo_signature_in_range
              Hrun)
    as (sg & bs & sig & rs & ss & _ & _ & Hsig & Hr & Hs & Hrr & Hrs).
  rewrite (demo_signature_shape _ _ _ Hsig) in Hrr, Hrs.
  rewrite signature_dict_r in Hr. rewrite signature_dict_s in Hs.
  injection Hr as <-. injection Hs as <-.
  split; [reflexivity |]. split; [exact Hrr |].
  split; [reflexivity | exact Hrs].
Defined.

Lemma sign_order_data_result_witness :
  exists od,
    outcome (sign_order_data (E := Demo.E0)
               (Demo.signing_wallet Demo.E0 Demo.key_bytes Demo.address)
               (ObjDomain Demo.domain)
               (ObjMessageToSign (Demo.order Demo.address_lower))) = Ok od
    /\ OrderData.bidId od = PInt 7
    /\ OrderData.trader od = PStr Demo.address_lower
    /\ OrderData.token od = PStr Demo.other_address
    /\ OrderData.amount od = PInt 1000
    /\ OrderData.v od = PInt 28.
Proof.
  eexists. split; [vm_compute; reflexivity |].
  edestruct (sign_order_data_result (E := Demo.E0)
               (Demo.signing_wallet Demo.E0 Demo.key_bytes Demo.address)
               (ObjDomain Demo.domain)
               (ObjMessageToSign (Demo.order Demo.address_lower)))
    as (m & d & h & sg & bs & sig & rs & ss & Hm & _ & Hb & Ht & Hk & Ha
        & _ & _ & _ & Hsig & Hv & _).
  - vm_compute. reflexivity.
  - injection Hm as <-. rewrite (demo_signature_shape _ _ _ Hsig) in Hv.
    repeat split; assumption.
Defined.

Lemma supplied_public_key_compared_verbatim_witness :
  exists w,
    Wallet_init (E := Demo.E0) (Some Demo.address_lower) (Some Demo.key) None None
    = Ok w
    /\ Utils.get_address Demo.address_lower = Ok Demo.address
    /\ public_key w = Some Demo.address_lower
    /\ sign_order_data w (ObjDomain Demo.domain)
                       (ObjMessageToSign (Demo.order Demo.address))
       = ([], Raise SignerMismatch).
Proof.
  eexists. split; [reflexivity |]. split; [vm_compute; reflexivity |].
  apply (supplied_public_key_compared_verbatim (E := Demo.E0)
           Demo.address_lower Demo.key None None _
           (ObjDomain Demo.domain) (Demo.order Demo.address) Demo.address
           eq_refl eq_refl eq_refl).
  - vm_compute. reflexivity.
  - vm_compute. reflexivity.
  - vm_compute. discriminate.
Defined.


(* ===================================================================== *)
(** * Hexadecimal text and bytes *)
(* ===================================================================== *)

Section HexBytes.

Lemma hex_value_range (c : ascii) (d : Z) :
  Py.hex_value c = Some d -> 0 <= d < 16.
Proof.
  unfold Py.hex_value. set (n := Z.of_nat (nat_of_ascii c)).
  repeat case_match; intros [= <-]; lia.
Qed.

Lemma hex_char_not_space (c : ascii) :
  Utils.is_hex_char c = true -> Py.is_space c = false.
Proof.
  destruct c as [[] [] [] [] [] [] [] []]; vm_compute; congruence.
Qed.

Lemma byte_value_of_Z (z : Z) :
  0 <= z < 256 -> Bytes.value (Py.byte_of_Z z) = z.
Proof.
  intros Hz. unfold Bytes.value, Py.byte_of_Z.
  destruct (Byte.of_N (Z.to_N z)) as [b |] eqn:Hb.
  - apply Byte.to_of_N in Hb. rewrite Hb. lia.
  - apply Byte.of_N_None_iff in Hb. lia.
Qed.

Lemma pow256 (k : nat) : 256 ^ Z.of_nat k = 16 ^ Z.of_nat (2 * k).
Proof.
  rewrite Nat2Z.inj_mul, Z.pow_mul_r by lia. reflexivity.
Qed.

Lemma fromhex_even_digits (n : nat) : forall s : string,
  Utils.forall_string Utils.is_hex_char s = true ->
  String.length s = (2 * n)%nat ->
  exists bs, Py.bytes_fromhex s = Ok bs
             /\ length bs = n
             /\ Bytes.be_value bs = Py.hex_val s.
Proof.
  induction n as [| n IH]; intros s Hhex Hlen.
  - destruct s; [| discriminate]. exists []. by repeat split.
  - destruct s as [| c [| c' rest]]; cbn in Hlen; try lia.
    cbn [Utils.forall_string] in Hhex.
    apply andb_prop in Hhex as [Hc Hhex]. apply andb_prop in Hhex as [Hc' Hrest].
    assert (Hlen' : String.length rest = (2 * n)%nat) by lia.
    destruct (IH rest Hrest Hlen') as (bs & Hbs & Hl & Hv).
    pose proof (hex_char_not_space c Hc) as Hsp.
    unfold Utils.is_hex_char in Hc, Hc'.
    destruct (Py.hex_value c) as [hi |] eqn:Hhi; [| discriminate].
    destruct (Py.hex_value c') as [lo |] eqn:Hlo; [| discriminate].
    pose proof (hex_value_range _ _ Hhi). pose proof (hex_value_range _ _ Hlo).
    exists (Py.byte_of_Z (16 * hi + lo) :: bs).
    split; [| split].
    + cbn [Py.bytes_fromhex]. by rewrite Hsp, Hhi, Hlo, Hbs.
    + cbn. by rewrite Hl.
    + cbn [Bytes.be_value Py.hex_val String.length].
      rewrite Hhi, Hlo, byte_value_of_Z, Hv, Hl, pow256, Hlen' by lia.
      cbn [default]. unfold id. rewrite pow16_succ. ring.
Qed.

(** X1: [bytes.fromhex] on an even number of hexadecimal digits returns
    half as many bytes, and these bytes, read as a big-endian number,
    denote the same number as the digits. *)
Theorem bytes_fromhex_even (n : nat) (s : string) :
  Utils.forall_string Utils.is_hex_char s = true ->
  String.length s = (2 * n)%nat ->
  exists bs, Py.bytes_fromhex s = Ok bs
             /\ length bs = n
             /\ Bytes.be_value bs = Py.hex_val s.
Proof. apply fromhex_even_digits. Qed.



(** With enough fuel the first digit of a positive number is not zero. *)
Lemma hex_digits_leading (fuel : nat) : forall (n : Z) (acc : string),
  0 < n < 16 ^ Z.of_nat (S fuel) ->
  exists d rest, Py.hex_digits fuel n acc = String (Py.hex_digit d) rest
                 /\ 0 < d < 16.
Proof.
  induction fuel as [| fuel IH]; intros n acc Hn.
  - change (16 ^ Z.of_nat 1) with 16 in Hn. exists n, acc.
    cbn [Py.hex_digits]. rewrite Z.mod_small by lia. by split.
  - cbn [Py.hex_digits]. destruct (n <? 16) eqn:Hlt.
    + apply Z.ltb_lt in Hlt. exists n, acc. split; [reflexivity | lia].
    + apply Z.ltb_ge in Hlt. apply IH. rewrite pow16_succ in Hn. split.
      * apply Z.div_str_pos. lia.
      * apply Z.div_lt_upper_bound; lia.
Qed.

Lemma hex_digit_nonzero (d : Z) : 0 < d < 16 -> Py.hex_digit d <> "0"%char.
Proof.
  intros Hd.
  assert (d = 1 \/ d = 2 \/ d = 3 \/ d = 4 \/ d = 5 \/ d = 6 \/ d = 7
          \/ d = 8 \/ d = 9 \/ d = 10 \/ d = 11 \/ d = 12 \/ d = 13 \/ d = 14
          \/ d = 15) as Hcases by lia.
  repeat (destruct Hcases as [-> | Hcases]); [..| subst d]; discriminate.
Qed.

(** X3: [hex] of a non-negative integer is ["0x"] followed by lowercase
    digits that denote the integer and, for a positive integer, do not
    start with a zero; [hex] of a negative integer is a minus sign
    followed by [hex] of its absolute value. *)
Theorem hex_canonical (n : Z) :
  (0 <= n ->
   exists digits,
     Py.hex n = ("0x" ++ digits)%string
     /\ Utils.forall_string Py.is_lower_hex digits = true
     /\ Py.hex_val digits = n
     /\ (0 < n -> exists c rest, digits = String c rest /\ c <> "0"%char))
  /\ (n < 0 -> Py.hex n = String "-" (Py.hex (- n))).
Proof.
  split.
  - intros Hn. unfold Py.hex.
    replace (n <? 0) with false by (symmetry; apply Z.ltb_ge; lia).
    rewrite Z.abs_eq by lia.
    eexists. split; [reflexivity |]. split; [| split].
    + by apply hex_digits_lower.
    + rewrite hex_digits_val by (split; [lia | by apply hex_fuel]). cbn. lia.
    + intros Hpos.
      destruct (hex_digits_leading (Z.to_nat (Z.log2 n)) n ""
                  ltac:(split; [lia | apply hex_fuel; lia]))
        as (d & rest & Hd & Hrange).
      exists (Py.hex_digit d), rest. split; [exact Hd |].
      by apply hex_digit_nonzero.
  - intros Hn. unfold Py.hex.
    replace (n <? 0) with true by (symmetry; apply Z.ltb_lt; lia).
    replace (- n <? 0) with false by (symmetry; apply Z.ltb_ge; lia).
    by rewrite Z.abs_opp.
Qed.

End HexBytes.

(* ===================================================================== *)
(** * Construction *)
(* ===================================================================== *)

Section Construction.
Context {E : Env}.

Lemma Wallet_init_inv (public private url tok : option string) (w : Wallet) :
  Wallet_init public private url tok = Ok w ->
  private_key w = private
  /\ relayer_url w = url
  /\ relayer_token w = tok
  /\ (Py.truthy private = true \/ Py.truthy public = true)
  /\ (Py.truthy public = true -> public_key w = public)
  /\ (Py.truthy private = false -> signer w = None)
  /\ (Py.truthy private = true ->
      exists key bs sg,
        private = Some key
        /\ Py.bytes_fromhex (Py.slice_from 2 key) = Ok bs
        /\ PrivateKey bs = Ok sg
        /\ signer w = Some sg
        /\ (Py.truthy public = false ->
            exists a, get_address (to_address sg) = Ok a
                      /\ public_key w = Some a)).
Proof.
  unfold Wallet_init.
  destruct (Py.truthy private) eqn:Hpriv; destruct (Py.truthy public) eqn:Hpub;
    cbn [negb andb]; try discriminate.
  - destruct private as [key |]; [| discriminate].
    destruct (Py.bytes_fromhex (Py.slice_from 2 key)) as [bs | e] eqn:Hbs;
      [| discriminate].
    destruct (PrivateKey bs) as [sg | e] eqn:Hsg; [| discriminate].
    intros [= <-]. cbn. repeat split; try done; [by left |].
    intros _. exists key, bs, sg. repeat split; done.
  - destruct private as [key |]; [| discriminate].
    destruct (Py.bytes_fromhex (Py.slice_from 2 key)) as [bs | e] eqn:Hbs;
      [| discriminate].
    destruct (PrivateKey bs) as [sg | e] eqn:Hsg; [| discriminate].
    destruct (get_address (to_address sg)) as [a | e] eqn:Ha; [| discriminate].
    intros [= <-]. cbn. repeat split; try done; [by left |].
    intros _. exists key, bs, sg. repeat split; try done.
    intros _. by exists a.
  - destruct private as [key |].
    + intros [= <-]. cbn. repeat split; try done. by right.
    + intros [= <-]. cbn. repeat split; try done. by right.
Qed.

(** X4: a wallet that [__init__] returns keeps the private key and the
    relayer settings it was given; at least one key was given; a given
    public key is kept as it is; and it has a signer exactly when a
    private key was given, built by [PrivateKey] from the bytes the key
    denotes after its first two characters.  Without a given public key
    the stored one is the normalized address of the signer. *)
Theorem Wallet_init_ok_inv (public private url tok : option string) (w : Wallet) :
  Wallet_init public private url tok = Ok w ->
  private_key w = private
  /\ relayer_url w = url
  /\ relayer_token w = tok
  /\ (Py.truthy private = true \/ Py.truthy public = true)
  /\ (Py.truthy public = true -> public_key w = public)
  /\ (Py.truthy private = false -> signer w = None)
  /\ (Py.truthy private = true ->
      exists key bs sg,
        private = Some key
        /\ Py.bytes_fromhex (Py.slice_from 2 key) = Ok bs
        /\ PrivateKey bs = Ok sg
        /\ signer w = Some sg
        /\ (Py.truthy public = false ->
            exists a, get_address (to_address sg) = Ok a
                      /\ public_key w = Some a)).
Proof. apply Wallet_init_inv. Qed.


End Construction.

(* ===================================================================== *)
(** * The signing path, forwards *)
(* ===================================================================== *)

Section SigningPath.
Context {E : Env}.
Implicit Types (self : Wallet) (domain : pyobj) (m : MessageToSign.t).

(** X6: [sign_msg] does not look at the first two characters of the
    hash: 64 hexadecimal digits behind any two characters reach the
    signer as 32 bytes denoting the same number, and what the signer
    returns comes back with [v] shifted by 27 and [r], [s] padded. *)
Theorem sign_msg_digest_bytes self (sg : Signer) (c1 c2 : ascii) (digits : string) :
  signer self = Some sg ->
  Utils.forall_string Utils.is_hex_char digits = true ->
  String.length digits = 64%nat ->
  exists bs,
    length bs = 32%nat
    /\ Bytes.be_value bs = Py.hex_val digits
    /\ (forall e, sign_msg_hash sg bs = Raise e ->
          sign_msg self (String c1 (String c2 digits)) = ([EvSign bs], Raise e))
    /\ (forall sig rs ss,
          sign_msg_hash sg bs = Ok sig ->
          hex_zero_pad (Py.hex (Signature.r sig)) 32 = Ok rs ->
          hex_zero_pad (Py.hex (Signature.s sig)) 32 = Ok ss ->
          sign_msg self (String c1 (String c2 digits))
          = ([EvSign bs], Ok (signature_dict sig rs ss))).
Proof.
  intros Hs Hhex Hlen.
  destruct (fromhex_even_digits 32 digits Hhex Hlen) as (bs & Hbs & Hl & Hv).
  exists bs. split; [exact Hl |]. split; [exact Hv |]. split.
  - intros e He. unfold sign_msg. rewrite Hs, bind_lift_ok.
    cbn [Py.slice_from]. rewrite Hbs, bind_lift_ok, bind_emit, He. reflexivity.
  - intros sig rs ss Hsig Hr Hss. unfold sign_msg. rewrite Hs, bind_lift_ok.
    cbn [Py.slice_from]. rewrite Hbs, bind_lift_ok, bind_emit, Hsig, bind_lift_ok.
    rewrite Hr, bind_lift_ok, Hss, bind_lift_ok. reflexivity.
Qed.

(** What [sign_msg] may have done when it returns or fails. *)
Lemma sign_msg_trace self (messageHash : string) :
  trace (sign_msg self messageHash) = []
  \/ exists sg bs,
       signer self = Some sg
       /\ Py.bytes_fromhex (Py.slice_from 2 messageHash) = Ok bs
       /\ trace (sign_msg self messageHash) = [EvSign bs].
Proof.
  unfold sign_msg.
  destruct (signer self) as [sg |] eqn:Hs; [| by left].
  rewrite bind_lift_ok.
  destruct (Py.bytes_fromhex (Py.slice_from 2 messageHash)) as [bs | e] eqn:Hb;
    [| by left].
  right. exists sg, bs. split; [reflexivity |]. split; [reflexivity |].
  rewrite bind_lift_ok, bind_emit. cbn [trace fst]. f_equal.
  destruct (sign_msg_hash sg bs) as [sig | e]; [| reflexivity].
  rewrite bind_lift_ok.
  destruct (hex_zero_pad (Py.hex (Signature.r sig)) 32) as [rs | e];
    [| reflexivity].
  rewrite bind_lift_ok.
  destruct (hex_zero_pad (Py.hex (Signature.s sig)) 32) as [ss | e];
    [| reflexivity].
  by rewrite bind_lift_ok.
Qed.

Lemma trace_bind_lift {A B} (r : result A) (f : A -> M B) :
  trace (lift r ≫= f) = match r with Ok a => trace (f a) | Raise _ => [] end.
Proof. destruct r as [a | e]; [by rewrite bind_lift_ok | reflexivity]. Qed.

Lemma trace_bind {A B} (c : M A) (f : A -> M B) :
  trace (c ≫= f)
  = trace c ++ match outcome c with Ok a => trace (f a) | Raise _ => [] end.
Proof.
  destruct c as [l [a | e]]; unfold mbind, M_bind, trace, outcome; cbn.
  - by destruct (f a).
  - by rewrite app_nil_r.
Qed.

(** X7: whatever its arguments and collaborators, [sign_order_data]
    calls the encoder at most once and the signer at most once, the
    signer only after the encoder, and only on the bytes of the digest
    the encoder returned for this order's fields under the domain's
    present fields and [MESSAGE_TYPES]; before either call the message
    is a [MessageToSign], the private key is present and the trader
    normalizes to the wallet's address. *)
Theorem sign_order_data_trace self domain (message_to_sign : pyobj) :
  trace (sign_order_data self domain message_to_sign) = []
  \/ exists m d a,
       message_to_sign = ObjMessageToSign m
       /\ domain = ObjDomain d
       /\ Py.truthy (private_key self) = true
       /\ get_address (MessageToSign.trader m) = Ok a
       /\ public_key self = Some a
       /\ (trace (sign_order_data self domain message_to_sign)
           = [EvHash (drop_none (asdict_Domain d)) MESSAGE_TYPES
                     (asdict_MessageToSign m)]
           \/ exists h sg bs,
                TypedDataEncoder_hash (drop_none (asdict_Domain d)) MESSAGE_TYPES
                                      (asdict_MessageToSign m) = Ok h
                /\ signer self = Some sg
                /\ Py.bytes_fromhex (Py.slice_from 2 h) = Ok bs
                /\ trace (sign_order_data self domain message_to_sign)
                   = [EvHash (drop_none (asdict_Domain d)) MESSAGE_TYPES
                             (asdict_MessageToSign m);
                      EvSign bs]).
Proof.
  destruct message_to_sign as [| m | |]; try by left.
  destruct (Py.truthy (private_key self)) eqn:Hk;
    [| left; by rewrite sign_order_data_without_key].
  rewrite sign_order_data_with_key by exact Hk.
  destruct (get_address (MessageToSign.trader m)) as [a | e] eqn:Ha; [| by left].
  rewrite bind_lift_ok.
  destruct (decide (Some a = public_key self)) as [Heq | Hne];
    [| left; by rewrite bool_decide_eq_true_2].
  rewrite bool_decide_eq_false_2 by (intros Hn; by apply Hn).
  destruct domain as [d | | |]; try by left.
  right. exists m, d, a. do 5 (split; [done |]).
  rewrite trace_bind.
  assert (Hrest : forall sigd : gmap string pyval,
    trace (v ← lift (subscript sigd "v");
           r ← lift (subscript sigd "r");
           s ← lift (subscript sigd "s");
           mret (OrderData.mk (PInt (MessageToSign.bidId m))
                              (PStr (MessageToSign.trader m))
                              (PStr (MessageToSign.token m))
                              (PInt (MessageToSign.amount m)) v r s)) = []).
  { intros sigd. rewrite trace_bind_lift.
    destruct (subscript sigd "v"); [| reflexivity]. rewrite trace_bind_lift.
    destruct (subscript sigd "r"); [| reflexivity]. rewrite trace_bind_lift.
    destruct (subscript sigd "s"); reflexivity. }
  assert (Htail : forall c : M (gmap string pyval),
    match outcome c with
    | Ok sigd =>
        trace (v ← lift (subscript sigd "v");
               r ← lift (subscript sigd "r");
               s ← lift (subscript sigd "s");
               mret (OrderData.mk (PInt (MessageToSign.bidId m))
                                  (PStr (MessageToSign.trader m))
                                  (PStr (MessageToSign.token m))
                                  (PInt (MessageToSign.amount m)) v r s))
    | Raise _ => []
    end = []).
  { intros c. destruct (outcome c); [apply Hrest | reflexivity]. }
  rewrite Htail, app_nil_r.
  unfold _sign_type_data_v4. rewrite bind_emit. cbn [trace fst].
  destruct (TypedDataEncoder_hash (drop_none (asdict_Domain d)) MESSAGE_TYPES
              (asdict_MessageToSign m)) as [h | e] eqn:Hh; [| by left].
  rewrite bind_lift_ok.
  destruct (sign_msg_trace self h) as [-> | (sg & bs & Hs & Hb & ->)];
    [by left |].
  right. by exists h, sg, bs.
Qed.

(** X8: [sign_order_data] succeeds when each step does: a wallet with a
    private key and a signer, a trader that normalizes to the wallet's
    address, a [Domain], a digest of 64 hexadecimal digits behind two
    characters, a signature, two padded strings.  The order returned
    repeats the message's bid id, trader, token and amount (the nonce
    is not part of it), and the encoder and the signer were each called
    once. *)
Theorem sign_order_data_succeeds self (d : Domain.t) m
    (a : string) (sg : Signer) (c1 c2 : ascii) (digits : string) (bs : list byte)
    (sig : Signature.t) (rs ss : string) :
  Py.truthy (private_key self) = true ->
  signer self = Some sg ->
  get_address (MessageToSign.trader m) = Ok a ->
  public_key self = Some a ->
  TypedDataEncoder_hash (drop_none (asdict_Domain d)) MESSAGE_TYPES
                        (asdict_MessageToSign m)
  = Ok (String c1 (String c2 digits)) ->
  Py.bytes_fromhex digits = Ok bs ->
  sign_msg_hash sg bs = Ok sig ->
  hex_zero_pad (Py.hex (Signature.r sig)) 32 = Ok rs ->
  hex_zero_pad (Py.hex (Signature.s sig)) 32 = Ok ss ->
  sign_order_data self (ObjDomain d) (ObjMessageToSign m)
  = ([ EvHash (drop_none (asdict_Domain d)) MESSAGE_TYPES (asdict_MessageToSign m);
       EvSign bs ],
     Ok (OrderData.mk (PInt (MessageToSign.bidId m))
                      (PStr (MessageToSign.trader m))
                      (PStr (MessageToSign.token m))
                      (PInt (MessageToSign.amount m))
                      (PInt (Signature.v sig + 27)) (PStr rs) (PStr ss))).
Proof.
  intros Hk Hs Ha Hpub Hh Hb Hsig Hr Hss.
  rewrite sign_order_data_with_key by exact Hk.
  rewrite Ha, bind_lift_ok.
  rewrite bool_decide_eq_false_2 by (intros Hn; by apply Hn).
  assert (Hsign : _sign_type_data_v4 self (ObjDomain d) MESSAGE_TYPES
                                     (asdict_MessageToSign m)
                  = ([ EvHash (drop_none (asdict_Domain d)) MESSAGE_TYPES
                              (asdict_MessageToSign m); EvSign bs ],
                     Ok (signature_dict sig rs ss))).
  { unfold _sign_type_data_v4. rewrite bind_emit, Hh, bind_lift_ok.
    unfold sign_msg. rewrite Hs, bind_lift_ok. cbn [Py.slice_from].
    rewrite Hb, bind_lift_ok, bind_emit, Hsig, bind_lift_ok.
    rewrite Hr, bind_lift_ok, Hss, bind_lift_ok. reflexivity. }
  rewrite Hsign. reflexivity.
Qed.

End SigningPath.

(* ===================================================================== *)
(** * A derived public key *)
(* ===================================================================== *)

Section ChecksumIdempotent.

Lemma hex_char_lower (c : ascii) :
  Utils.is_hex_char c = true ->
  Utils.is_hex_char (Utils.to_lower c) = true
  /\ Utils.is_hex_char (Utils.to_upper (Utils.to_lower c)) = true
  /\ Utils.to_lower (Utils.to_upper (Utils.to_lower c)) = Utils.to_lower c
  /\ Utils.to_lower (Utils.to_lower c) = Utils.to_lower c.
Proof.
  destruct c as [[] [] [] [] [] [] [] []]; vm_compute; intros H;
    try discriminate H; repeat split; reflexivity.
Qed.

Lemma length_map_string (f : ascii -> ascii) (s : string) :
  String.length (Utils.map_string f s) = String.length s.
Proof. induction s as [| c s IH]; [reflexivity |]. cbn. by rewrite IH. Qed.

Lemma length_checksum_case (h : list Z) (s : string) : forall i,
  String.length (Utils.checksum_case h i s) = String.length s.
Proof.
  induction s as [| c s IH]; intros i; [reflexivity |]. cbn. by rewrite IH.
Qed.

Lemma hex_checksum_case (h : list Z) (s : string) : forall i,
  Utils.forall_string Utils.is_hex_char s = true ->
  Utils.forall_string Utils.is_hex_char
    (Utils.checksum_case h i (Utils.map_string Utils.to_lower s)) = true.
Proof.
  induction s as [| c s IH]; intros i Hs; [reflexivity |].
  cbn [Utils.forall_string] in Hs. apply andb_prop in Hs as [Hc Hs].
  destruct (hex_char_lower c Hc) as (Hl & Hu & _).
  cbn [Utils.map_string Utils.checksum_case Utils.forall_string].
  rewrite (IH (S i) Hs).
  destruct (8 <=? Utils.nibble h i); [by rewrite Hu | by rewrite Hl].
Qed.

Lemma lower_checksum_case (h : list Z) (s : string) : forall i,
  Utils.forall_string Utils.is_hex_char s = true ->
  Utils.map_string Utils.to_lower
    (Utils.checksum_case h i (Utils.map_string Utils.to_lower s))
  = Utils.map_string Utils.to_lower s.
Proof.
  induction s as [| c s IH]; intros i Hs; [reflexivity |].
  cbn [Utils.forall_string] in Hs. apply andb_prop in Hs as [Hc Hs].
  destruct (hex_char_lower c Hc) as (_ & _ & Hul & Hll).
  cbn [Utils.map_string Utils.checksum_case].
  rewrite (IH (S i) Hs).
  destruct (8 <=? Utils.nibble h i); [by rewrite Hul | by rewrite Hll].
Qed.

(** A normalized address normalizes to itself. *)
Lemma get_address_idempotent (s a : string) :
  Utils.get_address s = Ok a -> Utils.get_address a = Ok a.
Proof.
  unfold Utils.get_address.
  set (body := Utils.strip_0x s).
  destruct (Nat.eqb (String.length body) 40
            && Utils.forall_string Utils.is_hex_char body) eqn:Hshape;
    cbn [negb]; [| discriminate].
  apply andb_prop in Hshape as [Hlen Hhex]. apply Nat.eqb_eq in Hlen.
  set (lower := Utils.map_string Utils.to_lower body).
  destruct (String.eqb body lower
            || String.eqb body (Utils.map_string Utils.to_upper body)
            || String.eqb ("0x" +:+ body) (Utils.to_checksum lower));
    [| discriminate].
  intros [= <-].
  set (h := Keccak.keccak256 (Utils.ascii_codes lower)).
  set (X := Utils.checksum_case h 0 lower).
  assert (Hstrip : Utils.strip_0x (Utils.to_checksum lower) = X) by reflexivity.
  assert (HlenX : String.length X = 40%nat).
  { unfold X, lower. by rewrite length_checksum_case, length_map_string. }
  assert (HhexX : Utils.forall_string Utils.is_hex_char X = true)
    by (by apply hex_checksum_case).
  assert (HlowX : Utils.map_string Utils.to_lower X = lower)
    by (by apply lower_checksum_case).
  rewrite !Hstrip, HlenX, HhexX, HlowX. cbn [Nat.eqb andb negb].
  change ("0x" +:+ X) with (Utils.to_checksum lower).
  rewrite (String.eqb_refl (Utils.to_checksum lower)). by rewrite !orb_true_r.
Qed.

End ChecksumIdempotent.

Section DerivedPublicKey.
Context {E : Env}.

(** X9: a wallet built from a private key alone stores the normalized
    address of its signer, and an order whose trader is that stored
    address, or the signer's address as the signer renders it, passes
    the signer check and reaches the encoder, provided normalizing a
    normalized address gives it back. *)
Theorem derived_public_key_accepts_own_address
    (public : option string) (private : string) (url tok : option string)
    (w : Wallet) :
  (forall s a, get_address s = Ok a -> get_address a = Ok a) ->
  Py.truthy public = false ->
  Wallet_init public (Some private) url tok = Ok w ->
  exists sg a,
    signer w = Some sg
    /\ get_address (to_address sg) = Ok a
    /\ public_key w = Some a
    /\ forall (d : Domain.t) (m : MessageToSign.t),
         MessageToSign.trader m = a \/ MessageToSign.trader m = to_address sg ->
         exists rest,
           trace (sign_order_data w (ObjDomain d) (ObjMessageToSign m))
           = EvHash (drop_none (asdict_Domain d)) MESSAGE_TYPES
                    (asdict_MessageToSign m) :: rest.
Proof.
  intros Hidem Hpub Hw.
  destruct (Wallet_init_inv _ _ _ _ _ Hw)
    as (Hpriv & _ & _ & Hkeys & _ & _ & Hsigner).
  assert (Hk : Py.truthy (Some private) = true)
    by (destruct Hkeys as [Hk | Hk]; [exact Hk | congruence]).
  destruct (Hsigner Hk) as (key & bs & sg & _ & _ & _ & Hsg & Hderived).
  destruct (Hderived Hpub) as (a & Ha & Hpk).
  exists sg, a. do 3 (split; [done |]).
  intros d m Htrader.
  assert (Hnorm : get_address (MessageToSign.trader m) = Ok a).
  { destruct Htrader as [-> | ->]; [by apply Hidem with (to_address sg) | exact Ha]. }
  rewrite sign_order_data_with_key by (by rewrite Hpriv).
  rewrite Hnorm, bind_lift_ok, Hpk.
  rewrite bool_decide_eq_false_2 by (intros Hn; by apply Hn).
  rewrite trace_bind. unfold _sign_type_data_v4. rewrite bind_emit.
  cbn [trace fst]. eexists. reflexivity.
Qed.

End DerivedPublicKey.

(* ===================================================================== *)
(** * The allowance check: failures and the quotient *)
(* ===================================================================== *)

Section AllowanceFailures.
Context {E : Env}.

(** X10: [verify_allowance] returns a boolean only when the token
    contract was reached with the token's address and the settlement
    contract's RPC endpoint and chain id, the allowance of the wallet's
    public key towards the settlement contract was read, [decimals] is
    not zero and the quotient fits a float; the boolean is the
    comparison of that quotient with [MIN_ALLOWANCE].  It never calls
    the encoder, the signer or the relayer. *)
Theorem verify_allowance_ok_inv (self : Wallet)
    (settlement_config : ContractConfig.t) (token_address : string) (b : bool) :
  outcome (verify_allowance self settlement_config token_address) = Ok b ->
  trace (verify_allowance self settlement_config token_address) = []
  /\ exists token raw f,
       ERC20Contract_new
         (ContractConfig.mk token_address
            (ContractConfig.rpc_uri settlement_config)
            (ContractConfig.chain_id settlement_config)) = Ok token
       /\ ERC20Contract.get_allowance token (public_key self)
            (ContractConfig.address settlement_config) = Ok raw
       /\ ERC20Contract.decimals token <> 0
       /\ PyFloat.true_div raw (ERC20Contract.decimals token) = Ok f
       /\ b = PyFloat.gt_int f MIN_ALLOWANCE.
Proof.
  unfold verify_allowance.
  destruct (ERC20Contract_new _) as [token | e] eqn:Htok; [| discriminate].
  rewrite bind_lift_ok.
  destruct (ERC20Contract.get_allowance token _ _) as [raw | e] eqn:Hraw;
    [| discriminate].
  rewrite bind_lift_ok.
  destruct (PyFloat.true_div raw (ERC20Contract.decimals token)) as [f | e] eqn:Hf;
    [| discriminate].
  rewrite bind_lift_ok. intros [= <-]. split; [reflexivity |].
  exists token, raw, f. repeat split; try done.
  intros Hz. rewrite Hz in Hf. discriminate Hf.
Qed.

(** X11: a failure of the token contract, when it is connected or when
    the allowance is read, comes out of [verify_allowance] unchanged,
    and a token whose [decimals] is zero makes it fail with
    [ZeroDivisionError], whatever the allowance. *)
Theorem verify_allowance_failures (self : Wallet)
    (settlement_config : ContractConfig.t) (token_address : string) :
  let token_config :=
    ContractConfig.mk token_address
                      (ContractConfig.rpc_uri settlement_config)
                      (ContractConfig.chain_id settlement_config) in
  (forall e, ERC20Contract_new token_config = Raise e ->
     verify_allowance self settlement_config token_address = ([], Raise e))
  /\ (forall token e,
        ERC20Contract_new token_config = Ok token ->
        ERC20Contract.get_allowance token (public_key self)
          (ContractConfig.address settlement_config) = Raise e ->
        verify_allowance self settlement_config token_address = ([], Raise e))
  /\ (forall token raw,
        ERC20Contract_new token_config = Ok token ->
        ERC20Contract.get_allowance token (public_key self)
          (ContractConfig.address settlement_config) = Ok raw ->
        ERC20Contract.decimals token = 0 ->
        verify_allowance self settlement_config token_address
        = ([], Raise (ZeroDivisionError "division by zero"))).
Proof.
  cbn zeta. unfold verify_allowance. repeat split.
  - intros e He. by rewrite He.
  - intros token e Htok He. by rewrite Htok, bind_lift_ok, He.
  - intros token raw Htok Hraw Hz.
    by rewrite Htok, bind_lift_ok, Hraw, bind_lift_ok, Hz.
Qed.

End AllowanceFailures.

Section Rounding.

Lemma round_half_even_nearest (num den : Z) :
  0 <= num -> 0 < den ->
  2 * Z.abs (PyFloat.round_half_even num den * den - num) <= den.
Proof.
  intros Hnum Hden. unfold PyFloat.round_half_even.
  pose proof (Z.div_mod num den ltac:(lia)) as Hdm.
  pose proof (Z.mod_pos_bound num den Hden) as Hr.
  set (q := num / den) in *. set (r := num mod den) in *.
  destruct (2 * r <? den) eqn:H1; [apply Z.ltb_lt in H1; nia |].
  apply Z.ltb_ge in H1.
  destruct (den <? 2 * r) eqn:H2; [apply Z.ltb_lt in H2; nia |].
  apply Z.ltb_ge in H2. destruct (Z.even q); nia.
Qed.

Lemma pow2_pos (k : Z) : 0 <= k -> 0 < 2 ^ k.
Proof. intros. apply Z.pow_pos_nonneg; lia. Qed.

Lemma pow2_split (i j : Z) : 0 <= i -> 0 <= j -> 2 ^ (i + j) = 2 ^ i * 2 ^ j.
Proof. intros. by rewrite Z.pow_add_r. Qed.

(** [quot_log2 a b] is the exponent of the quotient: [2^k <= a/b < 2^(k+1)],
    written without negative powers. *)
Lemma quot_log2_bounds (a b : Z) :
  0 < a -> 0 < b ->
  let k := PyFloat.quot_log2 a b in
  (0 <= k -> b * 2 ^ k <= a)
  /\ (k < 0 -> b <= a * 2 ^ (- k))
  /\ (0 <= k + 1 -> a < b * 2 ^ (k + 1))
  /\ (k + 1 < 0 -> a * 2 ^ (- (k + 1)) < b).
Proof.
  intros Ha Hb. cbn zeta.
  split; [by apply quot_log2_reaches |].
  unfold PyFloat.quot_log2.
  destruct (Z.log2_spec a Ha) as [Hla Hua].
  destruct (Z.log2_spec b Hb) as [Hlb Hub].
  pose proof (Z.log2_nonneg a) as Hna. pose proof (Z.log2_nonneg b) as Hnb.
  set (la := Z.log2 a) in *. set (lb := Z.log2 b) in *.
  set (d := la - lb).
  destruct (0 <=? d) eqn:Hd; [apply Z.leb_le in Hd | apply Z.leb_gt in Hd].
  - destruct (b * 2 ^ d <=? a) eqn:Hreach;
      [apply Z.leb_le in Hreach | apply Z.leb_gt in Hreach].
    + split; [lia |]. split; [| lia]. intros _.
      assert (2 ^ Z.succ la = 2 ^ lb * 2 ^ (d + 1))
        by (rewrite <- pow2_split by lia; f_equal; unfold d; lia).
      pose proof (pow2_pos (d + 1) ltac:(lia)). nia.
    + split; [| split].
      * intros Hk. assert (d = 0) by lia.
        replace (- (d - 1)) with 1 by lia.
        assert (2 ^ Z.succ lb = 2 ^ la * 2 ^ 1)
          by (rewrite <- pow2_split by lia; f_equal; unfold d in *; lia).
        change (2 ^ 1) with 2 in *. lia.
      * intros _. replace (d - 1 + 1) with d by lia. exact Hreach.
      * lia.
  - destruct (b <=? a * 2 ^ (- d)) eqn:Hreach;
      [apply Z.leb_le in Hreach | apply Z.leb_gt in Hreach].
    + split; [by intros _ |]. split.
      * intros Hk. assert (d = -1) by lia. replace (d + 1) with 0 by lia.
        assert (Z.succ la = lb) by (unfold d in *; lia).
        change (2 ^ 0) with 1. replace (2 ^ Z.succ la) with (2 ^ lb) in Hua
          by (f_equal; lia). lia.
      * intros Hk.
        assert (2 ^ lb = 2 ^ Z.succ la * 2 ^ (- (d + 1)))
          by (rewrite <- pow2_split by lia; f_equal; unfold d; lia).
        pose proof (pow2_pos (- (d + 1)) ltac:(lia)). nia.
    + split; [| split].
      * intros _.
        assert (Hp : 2 ^ la * 2 ^ (- (d - 1)) = 2 ^ Z.succ lb)
          by (rewrite <- pow2_split by lia; f_equal; unfold d; lia).
        pose proof (pow2_pos (- (d - 1)) ltac:(lia)). nia.
      * lia.
      * intros _. replace (- (d - 1 + 1)) with (- d) by lia. exact Hreach.
Qed.

(** X12: the float that [true_div] returns for integers [a] and
    [b <> 0] has the sign of the quotient, a mantissa of at most [2^53]
    and an exponent of at least -1074; above that least exponent the
    mantissa of a nonzero quotient is at least [2^52]; and its distance
    to the exact quotient is at most half a unit of the last mantissa
    bit. *)
Theorem true_div_nearest (a b : Z) (f : PyFloat.t) :
  PyFloat.true_div a b = Ok f ->
  b <> 0
  /\ PyFloat.neg f = xorb (a <? 0) (b <? 0)
  /\ 0 <= PyFloat.man f <= 2 ^ 53
  /\ -1074 <= PyFloat.exp f
  /\ (a <> 0 -> -1074 < PyFloat.exp f -> 2 ^ 52 <= PyFloat.man f)
  /\ (0 <= PyFloat.exp f ->
      2 * Z.abs (PyFloat.man f * (Z.abs b * 2 ^ PyFloat.exp f) - Z.abs a)
      <= Z.abs b * 2 ^ PyFloat.exp f)
  /\ (PyFloat.exp f < 0 ->
      2 * Z.abs (PyFloat.man f * Z.abs b - Z.abs a * 2 ^ (- PyFloat.exp f))
      <= Z.abs b).
Proof.
  unfold PyFloat.true_div.
  destruct (b =? 0) eqn:Hb; [discriminate |]. apply Z.eqb_neq in Hb.
  destruct (a =? 0) eqn:Ha.
  { apply Z.eqb_eq in Ha. subst a. intros [= <-].
    cbn [PyFloat.neg PyFloat.man PyFloat.exp].
    repeat split; try done; try lia. }
  apply Z.eqb_neq in Ha.
  set (x := Z.abs a). set (y := Z.abs b).
  assert (Hx : 0 < x) by (unfold x; lia). assert (Hy : 0 < y) by (unfold y; lia).
  destruct (quot_log2_bounds x y Hx Hy) as (Hlo & Hlo' & Hup & Hup').
  set (k := PyFloat.quot_log2 x y) in *.
  set (e := Z.max (k - 52) (-1074)).
  assert (He : -1074 <= e /\ k - 52 <= e) by lia.
  destruct (0 <=? e) eqn:Hsign; [apply Z.leb_le in Hsign | apply Z.leb_gt in Hsign].
  - (* not below one unit: the denominator is scaled *)
    assert (Hek : e = k - 52) by lia.
    pose proof (pow2_pos e Hsign) as Hpe.
    assert (Hk52 : 2 ^ k = 2 ^ e * 2 ^ 52)
      by (rewrite <- pow2_split by lia; f_equal; lia).
    assert (Hk53 : 2 ^ (k + 1) = 2 ^ e * 2 ^ 53)
      by (rewrite <- pow2_split by lia; f_equal; lia).
    specialize (Hlo ltac:(lia)). specialize (Hup ltac:(lia)).
    rewrite Hk52 in Hlo. rewrite Hk53 in Hup.
    set (X := 2 ^ e) in *.
    assert (Hden : 0 < y * X) by nia.
    set (m := PyFloat.round_half_even x (y * X)).
    assert (Hm_lo : 2 ^ 52 <= m) by (apply round_half_even_ge; lia).
    assert (Hm_hi : m <= 2 ^ 53) by (apply round_half_even_le; lia).
    pose proof (round_half_even_nearest x (y * X) ltac:(lia) Hden) as Hnear.
    fold m in Hnear.
    cbn [andb]. destruct (2 ^ 1024 <=? m * X); [discriminate |].
    intros [= <-]. cbn [PyFloat.neg PyFloat.man PyFloat.exp].
    repeat split; try done; try lia.
  - (* fractional bits: the numerator is scaled *)
    pose proof (pow2_pos (- e) ltac:(lia)) as Hpe.
    set (P := 2 ^ (- e)) in *.
    set (m := PyFloat.round_half_even (x * P) y).
    assert (Hm_hi : m <= 2 ^ 53).
    { apply round_half_even_le; [lia |].
      destruct (Z_le_gt_dec 0 (k + 1)) as [Hk | Hk].
      - specialize (Hup Hk).
        assert (2 ^ (k + 1) * P <= 2 ^ 53).
        { unfold P. rewrite <- pow2_split by lia.
          apply Z.pow_le_mono_r; lia. }
        pose proof (pow2_pos (k + 1) Hk). nia.
      - specialize (Hup' ltac:(lia)).
        assert (P <= 2 ^ 53 * 2 ^ (- (k + 1))).
        { unfold P. rewrite <- pow2_split by lia.
          apply Z.pow_le_mono_r; lia. }
        pose proof (pow2_pos (- (k + 1)) ltac:(lia)). nia. }
    assert (Hm_lo : -1074 < e -> 2 ^ 52 <= m).
    { intros Hnorm. assert (Hek : e = k - 52) by lia.
      apply round_half_even_ge; [lia |].
      destruct (Z_le_gt_dec 0 k) as [Hk | Hk].
      - specialize (Hlo Hk).
        assert (2 ^ 52 = 2 ^ k * P)
          by (unfold P; rewrite <- pow2_split by lia; f_equal; lia).
        pose proof (pow2_pos k Hk). nia.
      - specialize (Hlo' ltac:(lia)).
        assert (P = 2 ^ (- k) * 2 ^ 52)
          by (unfold P; rewrite <- pow2_split by lia; f_equal; lia).
        pose proof (pow2_pos (- k) ltac:(lia)). nia. }
    assert (Hm_0 : 0 <= m) by (apply round_half_even_ge; nia).
    pose proof (round_half_even_nearest (x * P) y ltac:(nia) Hy) as Hnear.
    fold m in Hnear.
    cbn [andb]. intros [= <-]. cbn [PyFloat.neg PyFloat.man PyFloat.exp].
    repeat split; try done; try lia.
Qed.

End Rounding.

(* ===================================================================== *)
(** * Settlement and the relayer *)
(* ===================================================================== *)

Section Settlement.
Context {E : Env}.

Lemma getattr_ok_inv (o : gmap string pyval) (a : string) (x : pyval) :
  getattr o a = Ok x -> o !! a = Some x.
Proof. unfold getattr. destruct (o !! a); [by intros [= ->] | discriminate]. Qed.



(** X13: a wallet without relayer URL cannot settle: [settle_trade]
    fails before any request is sent and before the settlement contract
    is asked to settle. *)
Theorem settle_trade_without_relayer_url (self : Wallet) (auction_id : string)
    (settlement_config : ContractConfig.t) (bid_order : OrderData.t) :
  relayer_url self = None ->
  exists e,
    settle_trade self auction_id settlement_config bid_order = ([], Raise e).
Proof.
  intros Hu. unfold settle_trade.
  destruct (SettlementContract_new settlement_config) as [[] | e].
  - rewrite bind_lift_ok, Hu. by eexists.
  - by eexists.
Qed.


(** X15: when the relayer's parsed response lacks one of the attributes
    [bidId], [trader], [amount], [v], [r], [s] (a plain dictionary has
    none of them), [settle_trade] fails with an [AttributeError] after
    the request and the print, and the settlement contract is not asked
    to settle. *)
Theorem settle_trade_missing_attribute (self : Wallet) (auction_id u : string)
    (settlement_config : ContractConfig.t) (bid_order : OrderData.t)
    (response : gmap string pyval) (a : string) :
  SettlementContract_new settlement_config = Ok tt ->
  relayer_url self = Some u ->
  requests_get_json
    ((u ++ "/sdk/signature/auction/") ++ auction_id ++ "/bid/"
       ++ Py.str (OrderData.bidId bid_order))%string
    [("Opyn-Cedefi-Bridge-X-API-Key"%string, relayer_token self)]
  = Ok response ->
  a ∈ ["bidId"; "trader"; "amount"; "v"; "r"; "s"]%string ->
  response !! a = None ->
  exists msg,
    settle_trade self auction_id settlement_config bid_order
    = ([ EvHttpGet ((u ++ "/sdk/signature/auction/") ++ auction_id ++ "/bid/"
                      ++ Py.str (OrderData.bidId bid_order))%string;
         EvPrint ],
       Raise (AttributeError msg)).
Proof.
  intros Hsc Hu Hget Ha Hmiss.
  assert (Hargs : exists msg,
            seller_order_args response = Raise (AttributeError msg)).
  { unfold seller_order_args, getattr.
    destruct (response !! "bidId") eqn:H1; [| by eexists].
    destruct (response !! "trader") eqn:H2; [| by eexists].
    destruct (response !! "amount") eqn:H3; [| by eexists].
    destruct (response !! "v") eqn:H4; [| by eexists].
    destruct (response !! "r") eqn:H5; [| by eexists].
    destruct (response !! "s") eqn:H6; [| by eexists].
    rewrite !elem_of_cons in Ha.
    destruct Ha as [-> | [-> | [-> | [-> | [-> | [-> | Ha]]]]]];
      try congruence.
    by apply elem_of_nil in Ha. }
  destruct Hargs as [msg Hargs]. exists msg.
  unfold settle_trade. rewrite Hsc, bind_lift_ok, Hu.
  unfold Py.add_str. rewrite bind_lift_ok, bind_emit. cbn [trace fst outcome snd].
  rewrite Hget, bind_lift_ok, bind_emit, Hargs. reflexivity.
Qed.

(** X16: [get_offer_details] needs both the wallet's relayer URL and an
    auction id: when either is [None] it fails with a [TypeError] and
    sends no request. *)
Theorem get_offer_details_missing_argument (self : Wallet)
    (auction_id : option string) :
  relayer_url self = None \/ auction_id = None ->
  exists msg, get_offer_details self auction_id = ([], Raise (TypeError msg)).
Proof.
  intros H. unfold get_offer_details.
  destruct (relayer_url self) as [u |]; [| by eexists].
  destruct H as [H | ->]; [discriminate H |].
  cbn [Py.add_str]. rewrite bind_lift_ok. by eexists.
Qed.

(** X17: a successful [get_offer_details] sent exactly one request, to
    the relayer URL immediately followed by ["auction/"] and the
    auction id, without the API-key header, and returns a dictionary
    with exactly the two keys [auctionId] and [status], bound to the
    attributes of these names of the parsed response. *)
Theorem get_offer_details_ok_inv (self : Wallet) (auction_id : option string)
    (out : gmap string pyval) :
  outcome (get_offer_details self auction_id) = Ok out ->
  exists u id response a st,
    relayer_url self = Some u
    /\ auction_id = Some id
    /\ requests_get_json ((u ++ "auction/") ++ id)%string [] = Ok response
    /\ trace (get_offer_details self auction_id)
       = [EvHttpGet ((u ++ "auction/") ++ id)%string]
    /\ response !! "auctionId" = Some a
    /\ response !! "status" = Some st
    /\ out !! "auctionId" = Some a
    /\ out !! "status" = Some st
    /\ dom out = ({[ "auctionId"; "status" ]} : gset string).
Proof.
  unfold get_offer_details.
  destruct (relayer_url self) as [u |]; [| discriminate].
  cbn [Py.add_str]. rewrite bind_lift_ok.
  destruct auction_id as [id |]; [| discriminate].
  cbn [PyStr.add_opt]. rewrite bind_lift_ok, bind_emit. cbn [outcome snd trace fst].
  destruct (requests_get_json _ _) as [response | e] eqn:Hget; [| discriminate].
  rewrite bind_lift_ok.
  destruct (getattr response "auctionId") as [a |] eqn:Ha; [| discriminate].
  rewrite bind_lift_ok.
  destruct (getattr response "status") as [st |] eqn:Hst; [| discriminate].
  rewrite bind_lift_ok. cbn. intros [= <-].
  exists u, id, response, a, st.
  apply getattr_ok_inv in Ha. apply getattr_ok_inv in Hst.
  repeat split; done.
Qed.


End Settlement.

(* ===================================================================== *)
(** * Concrete runs of the further properties *)
(* ===================================================================== *)

Lemma bytes_fromhex_even_witness :
  exists bs, Py.bytes_fromhex "0aff" = Ok bs
             /\ length bs = 2%nat
             /\ Bytes.be_value bs = Py.hex_val "0aff".
Proof. exact (bytes_fromhex_even 2 "0aff" eq_refl eq_refl). Defined.


Lemma hex_canonical_witness :
  (exists digits,
     Py.hex 255 = ("0x" ++ digits)%string
     /\ Utils.forall_string Py.is_lower_hex digits = true
     /\ Py.hex_val digits = 255
     /\ (0 < 255 -> exists c rest, digits = String c rest /\ c <> "0"%char))
  /\ Py.hex (-255) = String "-" (Py.hex (- -255)).
Proof.
  split.
  - apply (proj1 (hex_canonical 255)). lia.
  - apply (proj2 (hex_canonical (-255))). lia.
Defined.

Lemma Wallet_init_ok_inv_witness :
  private_key (Demo.signing_wallet Demo.E0 Demo.key_bytes Demo.address)
  = Some Demo.key
  /\ signer (Demo.signing_wallet Demo.E0 Demo.key_bytes Demo.address)
     = Some Demo.key_bytes.
Proof.
  destruct (Wallet_init_ok_inv (E := Demo.E0) (Some Demo.address) (Some Demo.key)
              (Some "https://relayer.example") (Some "token")
              (Demo.signing_wallet Demo.E0 Demo.key_bytes Demo.address) eq_refl)
    as (Hpriv & _ & _ & _ & _ & _ & _).
  split; [exact Hpriv | reflexivity].
Defined.


Lemma demo_digest_hex :
  Utils.forall_string Utils.is_hex_char (Py.slice_from 2 Demo.digest) = true.
Proof. vm_compute. reflexivity. Qed.

Lemma sign_msg_digest_bytes_witness :
  exists bs,
    length bs = 32%nat
    /\ sign_msg (E := Demo.E0)
         (Demo.signing_wallet Demo.E0 Demo.key_bytes Demo.address) Demo.digest
       = ([EvSign bs], Ok (signature_dict Demo.signature Demo.r_text Demo.s_text)).
Proof.
  destruct (sign_msg_digest_bytes (E := Demo.E0)
              (Demo.signing_wallet Demo.E0 Demo.key_bytes Demo.address)
              Demo.key_bytes "0" "x" (Py.slice_from 2 Demo.digest)
              eq_refl demo_digest_hex eq_refl)
    as (bs & Hl & _ & _ & Hrun).
  exists bs. split; [exact Hl |].
  apply (Hrun Demo.signature Demo.r_text Demo.s_text); [reflexivity | |];
    vm_compute; reflexivity.
Defined.

Lemma sign_order_data_succeeds_witness :
  outcome (sign_order_data (E := Demo.E0)
             (Demo.signing_wallet Demo.E0 Demo.key_bytes Demo.address)
             (ObjDomain Demo.domain)
             (ObjMessageToSign (Demo.order Demo.address_lower)))
  = Ok (OrderData.mk (PInt 7) (PStr Demo.address_lower) (PStr Demo.other_address)
                     (PInt 1000) (PInt 28) (PStr Demo.r_text) (PStr Demo.s_text)).
Proof.
  rewrite (sign_order_data_succeeds (E := Demo.E0)
             (Demo.signing_wallet Demo.E0 Demo.key_bytes Demo.address)
             Demo.domain (Demo.order Demo.address_lower) Demo.address
             Demo.key_bytes "0" "x" (Py.slice_from 2 Demo.digest)
             (match Py.bytes_fromhex (Py.slice_from 2 Demo.digest) with
              | Ok bs => bs
              | Raise _ => []
              end)
             Demo.signature Demo.r_text Demo.s_text).
  - reflexivity.
  - reflexivity.
  - reflexivity.
  - vm_compute. reflexivity.
  - reflexivity.
  - reflexivity.
  - vm_compute. reflexivity.
  - reflexivity.
  - vm_compute. reflexivity.
  - vm_compute. reflexivity.
Defined.

Lemma derived_public_key_accepts_own_address_witness :
  exists w,
    Wallet_init (E := Demo.E0) None (Some Demo.key) None None = Ok w
    /\ public_key w = Some Demo.address
    /\ exists rest,
         trace (sign_order_data w (ObjDomain Demo.domain)
                  (ObjMessageToSign (Demo.order Demo.address)))
         = EvHash (drop_none (asdict_Domain Demo.domain)) MESSAGE_TYPES
                  (asdict_MessageToSign (Demo.order Demo.address)) :: rest.
Proof.
  assert (Hinit : Wallet_init (E := Demo.E0) None (Some Demo.key) None None
                  = Ok (@mkWallet Demo.E0 (Some Demo.key) (Some Demo.address)
                                  None None (Some Demo.key_bytes))).
  { unfold Wallet_init. cbn [Py.truthy negb andb].
    change (Py.bytes_fromhex (Py.slice_from 2 Demo.key)) with (Ok Demo.key_bytes).
    cbn [PrivateKey to_address get_address Demo.E0 Demo.env].
    rewrite get_address_lower. reflexivity. }
  eexists. split; [exact Hinit |]. split; [reflexivity |].
  destruct (derived_public_key_accepts_own_address (E := Demo.E0)
              None Demo.key None None _ get_address_idempotent eq_refl Hinit)
    as (sg & a & _ & _ & Hpk & Hrun).
  injection Hpk as <-.
  apply (Hrun Demo.domain (Demo.order Demo.address)). by left.
Defined.

Lemma verify_allowance_ok_inv_witness :
  exists token raw f,
    ERC20Contract.decimals token <> 0
    /\ PyFloat.true_div raw (ERC20Contract.decimals token) = Ok f
    /\ true = PyFloat.gt_int f MIN_ALLOWANCE.
Proof.
  destruct (verify_allowance_ok_inv (E := Demo.E0)
              (Demo.watching_wallet _ Demo.address) Demo.config
              Demo.other_address true ltac:(vm_compute; reflexivity))
    as (_ & token & raw & f & _ & _ & Hd & Hf & Hb).
  by exists token, raw, f.
Defined.

Lemma verify_allowance_failures_witness :
  verify_allowance (E := Demo.env 5 0 ∅) (Demo.watching_wallet _ Demo.address)
                   Demo.config Demo.other_address
  = ([], Raise (ZeroDivisionError "division by zero")).
Proof.
  apply (proj2 (proj2 (verify_allowance_failures (E := Demo.env 5 0 ∅)
                         (Demo.watching_wallet _ Demo.address) Demo.config
                         Demo.other_address))
           (ERC20Contract.mk 0 (fun _ _ => Ok 5)) 5); reflexivity.
Defined.

Lemma true_div_nearest_witness :
  0 <= 7881299347898368 <= 2 ^ 53
  /\ 2 * Z.abs (7881299347898368 * Z.abs 2 - Z.abs 7 * 2 ^ (- -51)) <= Z.abs 2.
Proof.
  destruct (true_div_nearest 7 2 (PyFloat.mk false 7881299347898368 (-51)) eq_refl)
    as (_ & _ & Hm & _ & _ & _ & Hnear).
  split; [exact Hm |]. apply Hnear. reflexivity.
Defined.

Lemma settle_trade_without_relayer_url_witness :
  exists e,
    settle_trade (E := Demo.E0) (Demo.watching_wallet _ Demo.address) "42"
                 Demo.config
                 demo_bid
    = ([], Raise e).
Proof.
  exact (settle_trade_without_relayer_url (E := Demo.E0)
           (Demo.watching_wallet _ Demo.address) "42" Demo.config _ eq_refl).
Defined.


Lemma settle_trade_missing_attribute_witness :
  exists msg,
    settle_trade (E := demo_env_auction)
                 (Demo.signing_wallet demo_env_auction Demo.key_bytes Demo.address) "42"
                 Demo.config
                 demo_bid
    = ([ EvHttpGet (("https://relayer.example" ++ "/sdk/signature/auction/")
                      ++ "42" ++ "/bid/" ++ Py.str (OrderData.bidId demo_bid))%string;
         EvPrint ],
       Raise (AttributeError msg)).
Proof.
  apply (settle_trade_missing_attribute (E := demo_env_auction)
           (Demo.signing_wallet demo_env_auction Demo.key_bytes Demo.address) "42"
           "https://relayer.example" Demo.config demo_bid demo_auction "bidId"
           eq_refl eq_refl eq_refl).
  - rewrite !elem_of_cons. by left.
  - reflexivity.
Defined.

Lemma get_offer_details_missing_argument_witness :
  exists msg,
    get_offer_details (E := Demo.E0)
      (Demo.signing_wallet Demo.E0 Demo.key_bytes Demo.address) None
    = ([], Raise (TypeError msg)).
Proof.
  apply (get_offer_details_missing_argument (E := Demo.E0)). by right.
Defined.

Lemma get_offer_details_ok_inv_witness :
  exists out,
    outcome (get_offer_details (E := demo_env_auction)
               (Demo.signing_wallet demo_env_auction Demo.key_bytes Demo.address) (Some "42"))
    = Ok out
    /\ out !! "status" = Some (PStr "open")
    /\ trace (get_offer_details (E := demo_env_auction)
                (Demo.signing_wallet demo_env_auction Demo.key_bytes Demo.address) (Some "42"))
       = [EvHttpGet "https://relayer.exampleauction/42"].
Proof.
  exists demo_auction.
  assert (Hrun : outcome (get_offer_details (E := demo_env_auction)
               (Demo.signing_wallet demo_env_auction Demo.key_bytes Demo.address) (Some "42"))
                 = Ok demo_auction) by (vm_compute; reflexivity).
  split; [exact Hrun |].
  destruct (get_offer_details_ok_inv _ _ _ Hrun)
    as (u & id & response & a & st & Hu & Hid & _ & Htr & _ & _ & _ & Hst & _).
  split; [reflexivity |].
  injection Hu as <-. injection Hid as <-. exact Htr.
Defined.
